(** * The drone-over-plate task: episodic state machine and reward model

    A shallow embedding of [isaacgymenvs/tasks/drone_plate.py]: the
    batched buffers of the [Drone] task, the target scheduler
    ([set_targets]), the episode resetter ([reset_idx]), the step
    orchestrator ([pre_physics_step]) and the jit-scripted evaluator
    [compute_drone_reward].

    Conventions of the embedding.
    - A tensor with leading dimension [num_envs] is a [list] indexed by
      the environment id; rows of fixed width are records ([Vec3],
      [Quat], [Vec4], [RootState]).
    - Tensor entries are real numbers: the arithmetic of the source is
      read over [R].  What is stated over [R] is kept to what stays true
      when every operation is the rounded float32 one: equations between
      the expressions of the source, and bounds and orderings that are
      not strict.  Overflow, infinities and NaN are in module
      [Binary32], which has the reward kernel and the thrust clamp in
      IEEE single precision.
    - Integer tensors ([reset_buf], [progress_buf], actor indices) are
      lists over [Z].
    - Methods that mutate [self] take the task state and return the new
      one; calls into the simulator are appended to a trace.  A call
      that ends in an exception is an [Outcome] that carries the state
      left behind.
    - Random draws ([torch.rand], [np.random.uniform]) are read from a
      [Draws] argument. *)

From Stdlib Require Import Reals Lra Psatz ZArith Sorted.
From Stdlib Require Floats.SpecFloat.
From stdpp Require Import base decidable list.

#[local] Instance Rlt_decision : RelDecision Rlt := Rlt_dec.
#[local] Instance Rle_decision : RelDecision Rle := Rle_dec.

(** ** Rows *)

Record Vec3 := mkVec3 { vx : R; vy : R; vz : R }.

(** Columns 3:7 of a root state, in the order x, y, z, w. *)
Record Quat := mkQuat { qx : R; qy : R; qz : R; qw : R }.

(** A row of four floats: one action, or the four rotor thrusts. *)
Record Vec4 := mkVec4 { c0 : R; c1 : R; c2 : R; c3 : R }.

(** One row of [vec_root_tensor[:, k, :]]: 13 floats, position 0:3,
    quaternion 3:7, linear velocity 7:10, angular velocity 10:13. *)
Record RootState := mkRootState {
  rs_pos : Vec3;
  rs_quat : Quat;
  rs_linvel : Vec3;
  rs_angvel : Vec3
}.

Module Tensor.
Local Open Scope R_scope.

Definition vsub (a b : Vec3) : Vec3 :=
  mkVec3 (vx a - vx b) (vy a - vy b) (vz a - vz b).

Definition vadd (a b : Vec3) : Vec3 :=
  mkVec3 (vx a + vx b) (vy a + vy b) (vz a + vz b).

Definition vscale (a : Vec3) (k : R) : Vec3 :=
  mkVec3 (vx a * k) (vy a * k) (vz a * k).

(** [torch.square(v)], element-wise. *)
Definition vsquare (a : Vec3) : Vec3 :=
  mkVec3 (vx a * vx a) (vy a * vy a) (vz a * vz a).

(** [v.sum(-1)]. *)
Definition vsum (a : Vec3) : R := vx a + vy a + vz a.

Definition cross (a b : Vec3) : Vec3 :=
  mkVec3 (vy a * vz b - vz a * vy b)
         (vz a * vx b - vx a * vz b)
         (vx a * vy b - vy a * vx b).

Definition dot (a b : Vec3) : R := vx a * vx b + vy a * vy b + vz a * vz b.

(** [torch.where(cond, a, b)] on one-dimensional tensors. *)
Definition where_ {A} (cond : list bool) (a b : list A) : list A :=
  zip_with (fun (c : bool) (xy : A * A) => if c then xy.1 else xy.2)
           cond (zip a b).

(** [torch.clamp(x, lo, hi)] on one entry: [min(max(x, lo), hi)].  A NaN
    entry, which [torch.clamp] returns as it is, has no counterpart in
    [R]: see [Binary32.clamp]. *)
Definition clamp (x lo hi : R) : R := Rmin (Rmax x lo) hi.

(** Indices of the [true] entries, ascending:
    [mask.nonzero(as_tuple=False).squeeze(-1)]. *)
Fixpoint nonzero_from (i : nat) (mask : list bool) : list nat :=
  match mask with
  | [] => []
  | b :: mask' =>
      if b then i :: nonzero_from (S i) mask' else nonzero_from (S i) mask'
  end.

Definition nonzero (mask : list bool) : list nat := nonzero_from 0 mask.

(** [t[ids]]: the rows of [t] at the given indices, in the order of
    [ids].  (An index past the end raises in torch; every index list of
    the task comes from [nonzero] over a buffer of the same length.) *)
Definition gather {A} (ids : list nat) (t : list A) : list A :=
  omap (fun i => t !! i) ids.

(** [t[ids] = vals] and its column variants: the [k]-th index receives
    the [k]-th value, merged into the old row by [put]; later indices
    overwrite earlier ones. *)
Definition scatter {A B} (put : B -> A -> A)
    (ids : list nat) (vals : list B) (t : list A) : list A :=
  foldl (fun acc (iv : nat * B) => alter (put iv.2) iv.1 acc) t (zip ids vals).

(** The right-hand side of [t[:, ...] = vals] as torch reads it: a
    tensor of one row is broadcast over the [n] rows of the slice.  (Any
    other number of rows than 1 or [n] raises RuntimeError at the
    assignment.) *)
Definition broadcast_rows {A} (n : nat) (vals : list A) : list A :=
  match vals with
  | [x] => replicate n x
  | _ => vals
  end.

(** Sorted insertion without repetition. *)
Fixpoint insert_unique (x : Z) (l : list Z) : list Z :=
  match l with
  | [] => [x]
  | y :: l' =>
      if (x <? y)%Z then x :: l
      else if (x =? y)%Z then l
      else y :: insert_unique x l'
  end.

(** [torch.unique(t)] on a one-dimensional integer tensor: the distinct
    entries in ascending order. *)
Definition unique (t : list Z) : list Z := foldr insert_unique [] t.

End Tensor.
Import Tensor.

(** ** Helpers of [isaacgymenvs.utils.torch_jit_utils]

    The task imports these from [torch_jit_utils]; that module is not
    part of the two source files. *)

Module TorchJitUtils.
Local Open Scope R_scope.

(** Modelled from the spec: [quat_rotate] and [quat_axis] of
    [torch_jit_utils] are missing; section 4.5 describes the result as
    the body-frame axis rotated by the orientation quaternion into the
    world frame.  The rotation of [v] by the quaternion [(x, y, z, w)]
    is written in the library's three-term form
    [v (2 w^2 - 1) + 2 w (q_vec x v) + 2 q_vec (q_vec . v)]. *)
Definition quat_rotate (q : Quat) (v : Vec3) : Vec3 :=
  let q_w := qw q in
  let q_vec := mkVec3 (qx q) (qy q) (qz q) in
  let a := vscale v (2 * (q_w * q_w) - 1) in
  let b := vscale (vscale (cross q_vec v) q_w) 2 in
  let c := vscale (vscale q_vec (dot q_vec v)) 2 in
  vadd (vadd a b) c.

Definition basis_vec (axis : nat) : Vec3 :=
  mkVec3 (if decide (axis = 0%nat) then 1 else 0)
         (if decide (axis = 1%nat) then 1 else 0)
         (if decide (axis = 2%nat) then 1 else 0).

Definition quat_axis (q : Quat) (axis : nat) : Vec3 :=
  quat_rotate q (basis_vec axis).

(** Modelled from the spec: [torch_rand_float] of [torch_jit_utils] is
    missing; section 4.3 asks for uniform noise in a bounded range.  One
    entry of [torch_rand_float(lower, upper, shape, device)] from one
    entry [u] of [torch.rand], which lies in [0, 1). *)
Definition torch_rand_float (lower upper : R) (u : R) : R :=
  (upper - lower) * u + lower.

End TorchJitUtils.
Import TorchJitUtils.

(** ** [compute_drone_reward] *)

Section Reward.
Local Open Scope R_scope.

Definition compute_drone_reward
    (root_positions target_root_positions : list Vec3)
    (root_quats : list Quat)
    (root_linvels root_angvels : list Vec3)
    (reset_buf progress_buf : list Z)
    (max_episode_length : Z) : list R * list Z :=
  let target_dist :=
    (fun d => sqrt (vsum (vsquare d)))
      <$> zip_with vsub target_root_positions root_positions in
  let pos_reward := (fun d => 3.0 / (1.0 + d * d)) <$> target_dist in

  let ups := (fun q => quat_axis q 2) <$> root_quats in
  let tiltage := (fun u => Rabs (1 - vz u)) <$> ups in
  let up_reward := (fun t => 1.0 / (1.0 + t * t)) <$> tiltage in

  let spinnage := (fun w => Rabs (vz w)) <$> root_angvels in
  let spinnage_reward := (fun s => 1.0 / (1.0 + s * s)) <$> spinnage in

  let reward :=
    zip_with Rplus pos_reward
      (zip_with Rmult pos_reward (zip_with Rplus up_reward spinnage_reward)) in

  let ones := (fun _ => 1%Z) <$> reset_buf in
  let die := (fun _ => 0%Z) <$> reset_buf in
  let die := where_ ((fun d => bool_decide (8.0 < d)) <$> target_dist) ones die in
  let die := where_ ((fun p => bool_decide (vz p < 0.5)) <$> root_positions) ones die in
  let die := where_ ((fun u => bool_decide (vz u < 0)) <$> ups) ones die in

  let reset :=
    where_ ((fun p => bool_decide (max_episode_length - 1 <= p)%Z) <$> progress_buf)
           ones die in

  (reward, reset).

End Reward.

(** ** Calling the scripted evaluator

    [@torch.jit.script] compiles [compute_drone_reward] with every
    parameter that has no annotation typed as a tensor.  A call that
    passes a Python number for such a parameter raises RuntimeError
    before the body runs. *)

Inductive PyError := RuntimeError.

(** How a call ends: it returns a state, or it raises and leaves the
    state given. *)
Inductive Outcome (A : Type) :=
| returned (a : A)
| raised (err : PyError) (a : A).
Arguments returned {A} a.
Arguments raised {A} err a.

Definition outcome_state {A} (o : Outcome A) : A :=
  match o with
  | returned a => a
  | raised _ a => a
  end.

(** The value passed for [max_episode_length]: a Python int, or a
    tensor that holds the integer. *)
Inductive PyScalar :=
| PyInt (z : Z)
| PyTensor (z : Z).

Definition call_compute_drone_reward
    (root_positions target_root_positions : list Vec3)
    (root_quats : list Quat)
    (root_linvels root_angvels : list Vec3)
    (reset_buf progress_buf : list Z)
    (max_episode_length : PyScalar) : option (list R * list Z) :=
  match max_episode_length with
  | PyTensor L =>
      Some (compute_drone_reward root_positions target_root_positions
              root_quats root_linvels root_angvels reset_buf progress_buf L)
  | PyInt _ => None
  end.

(** ** One environment of the evaluator

    What the lines of [compute_drone_reward] compute at one index of
    the batch; [compute_drone_reward_at] below proves the batch
    function agrees with these. *)

Section RewardAt.
Local Open Scope R_scope.

Definition target_dist_at (target pos : Vec3) : R :=
  sqrt (vsum (vsquare (vsub target pos))).

Definition up_z_at (q : Quat) : R := vz (quat_axis q 2).

Definition reward_at (pos target : Vec3) (q : Quat) (angvel : Vec3) : R :=
  let target_dist := target_dist_at target pos in
  let pos_reward := 3.0 / (1.0 + target_dist * target_dist) in
  let tiltage := Rabs (1 - up_z_at q) in
  let up_reward := 1.0 / (1.0 + tiltage * tiltage) in
  let spinnage := Rabs (vz angvel) in
  let spinnage_reward := 1.0 / (1.0 + spinnage * spinnage) in
  pos_reward + pos_reward * (up_reward + spinnage_reward).

(** The three early-termination conditions. *)
Definition too_far (pos target : Vec3) : Prop := 8.0 < target_dist_at target pos.
Definition too_low (pos : Vec3) : Prop := vz pos < 0.5.
Definition flipped (q : Quat) : Prop := up_z_at q < 0.

#[local] Instance too_far_dec pos target : Decision (too_far pos target) :=
  Rlt_decision _ _.
#[local] Instance too_low_dec pos : Decision (too_low pos) := Rlt_decision _ _.
#[local] Instance flipped_dec q : Decision (flipped q) := Rlt_decision _ _.

Definition die_at (pos target : Vec3) (q : Quat) : Z :=
  let die := 0%Z in
  let die := if bool_decide (too_far pos target) then 1%Z else die in
  let die := if bool_decide (too_low pos) then 1%Z else die in
  let die := if bool_decide (flipped q) then 1%Z else die in
  die.

Definition reset_at (pos target : Vec3) (q : Quat)
    (progress max_episode_length : Z) : Z :=
  if bool_decide (max_episode_length - 1 <= progress)%Z then 1%Z
  else die_at pos target q.

End RewardAt.

(** ** The simulator binding

    [gymapi] belongs to the physics engine.  The task only builds a
    quaternion with it and issues two kinds of tensor calls, which are
    recorded in the order they are made. *)

Module GymApi.
Local Open Scope R_scope.

(** [gymapi.Quat.from_axis_angle(axis, angle)], with fields x, y, z, w. *)
Definition from_axis_angle (axis : Vec3) (angle : R) : Quat :=
  let s := sin (angle / 2) in
  mkQuat (vx axis * s) (vy axis * s) (vz axis * s) (cos (angle / 2)).

Inductive GymCall :=
| set_actor_root_state_tensor_indexed (actor_indices : list Z) (count : nat)
| apply_rigid_body_force_tensors (forces : list (list Vec3)).

Definition is_root_state_write (c : GymCall) : bool :=
  match c with
  | set_actor_root_state_tensor_indexed _ _ => true
  | apply_rigid_body_force_tensors _ => false
  end.

End GymApi.
Import GymApi.

(** ** Random draws

    Entry [k] of each [torch.rand] tensor requested by [reset_idx], and
    the two [np.random.uniform] results of iteration [k] of its plate
    loop. *)

Record Draws := mkDraws {
  rand_x : nat -> R;
  rand_y : nat -> R;
  rand_z : nat -> R;
  tilt_angle : nat -> R;
  tilt_direction : nat -> R
}.

(** [torch.rand] yields values of the half-open unit interval. *)
Definition unit_draws (rnd : Draws) : Prop :=
  forall k,
    (0 <= rand_x rnd k < 1)%R /\ (0 <= rand_y rnd k < 1)%R /\
    (0 <= rand_z rnd k < 1)%R.

(** ** The task object *)

Record Drone := mkDrone {
  max_episode_length : Z;
  dt : R;
  drone_mass : R;
  (** [vec_root_tensor[:, 0, :]] and [vec_root_tensor[:, 1, :]] *)
  root_states : list RootState;
  marker_states : list RootState;
  target_root_positions : list Vec3;
  initial_root_states : list RootState;
  initial_marker_states : list RootState;
  (** control tensors, [(num_envs, 4)] and [(num_envs, bodies_per_env, 3)] *)
  thrusts : list Vec4;
  forces : list (list Vec3);
  rew_buf : list R;
  reset_buf : list Z;
  progress_buf : list Z;
  (** calls made on [self.gym], oldest first *)
  gym : list GymCall
}.

Definition num_envs (d : Drone) : nat := length (reset_buf d).

(** Views of the root tensor. *)
Definition root_positions (d : Drone) : list Vec3 := rs_pos <$> root_states d.
Definition root_quats (d : Drone) : list Quat := rs_quat <$> root_states d.
Definition root_linvels (d : Drone) : list Vec3 := rs_linvel <$> root_states d.
Definition root_angvels (d : Drone) : list Vec3 := rs_angvel <$> root_states d.
Definition marker_positions (d : Drone) : list Vec3 := rs_pos <$> marker_states d.

(** Every per-environment buffer has leading dimension [n]. *)
Record shaped (n : nat) (d : Drone) : Prop := mkShaped {
  shaped_root : length (root_states d) = n;
  shaped_marker : length (marker_states d) = n;
  shaped_target : length (target_root_positions d) = n;
  shaped_initial_root : length (initial_root_states d) = n;
  shaped_thrusts : length (thrusts d) = n;
  shaped_forces : length (forces d) = n;
  shaped_reset : length (reset_buf d) = n;
  shaped_progress : length (progress_buf d) = n
}.

(** Constants fixed by [Drone.__init__]. *)
Definition thrust_lower_limit : R := 0.
Definition thrust_upper_limit : R := 2000.
Definition thrust_velocity_scale : R := 2000.
Definition bodies_per_env : nat := 6.

(** [self.all_actor_indices[e, k]], from
    [arange(num_envs * 2).reshape((num_envs, 2))]. *)
Definition all_actor_indices (e k : nat) : Z := Z.of_nat (2 * e + k).

(** Field updates. *)
Definition with_root_states (f : list RootState -> list RootState) (d : Drone) : Drone :=
  mkDrone (max_episode_length d) (dt d) (drone_mass d)
    (f (root_states d)) (marker_states d) (target_root_positions d)
    (initial_root_states d) (initial_marker_states d)
    (thrusts d) (forces d) (rew_buf d) (reset_buf d) (progress_buf d) (gym d).

Definition with_marker_states (f : list RootState -> list RootState) (d : Drone) : Drone :=
  mkDrone (max_episode_length d) (dt d) (drone_mass d)
    (root_states d) (f (marker_states d)) (target_root_positions d)
    (initial_root_states d) (initial_marker_states d)
    (thrusts d) (forces d) (rew_buf d) (reset_buf d) (progress_buf d) (gym d).

Definition with_target_root_positions (f : list Vec3 -> list Vec3) (d : Drone) : Drone :=
  mkDrone (max_episode_length d) (dt d) (drone_mass d)
    (root_states d) (marker_states d) (f (target_root_positions d))
    (initial_root_states d) (initial_marker_states d)
    (thrusts d) (forces d) (rew_buf d) (reset_buf d) (progress_buf d) (gym d).

Definition with_thrusts (f : list Vec4 -> list Vec4) (d : Drone) : Drone :=
  mkDrone (max_episode_length d) (dt d) (drone_mass d)
    (root_states d) (marker_states d) (target_root_positions d)
    (initial_root_states d) (initial_marker_states d)
    (f (thrusts d)) (forces d) (rew_buf d) (reset_buf d) (progress_buf d) (gym d).

Definition with_forces (f : list (list Vec3) -> list (list Vec3)) (d : Drone) : Drone :=
  mkDrone (max_episode_length d) (dt d) (drone_mass d)
    (root_states d) (marker_states d) (target_root_positions d)
    (initial_root_states d) (initial_marker_states d)
    (thrusts d) (f (forces d)) (rew_buf d) (reset_buf d) (progress_buf d) (gym d).

Definition with_rew_buf (f : list R -> list R) (d : Drone) : Drone :=
  mkDrone (max_episode_length d) (dt d) (drone_mass d)
    (root_states d) (marker_states d) (target_root_positions d)
    (initial_root_states d) (initial_marker_states d)
    (thrusts d) (forces d) (f (rew_buf d)) (reset_buf d) (progress_buf d) (gym d).

Definition with_reset_buf (f : list Z -> list Z) (d : Drone) : Drone :=
  mkDrone (max_episode_length d) (dt d) (drone_mass d)
    (root_states d) (marker_states d) (target_root_positions d)
    (initial_root_states d) (initial_marker_states d)
    (thrusts d) (forces d) (rew_buf d) (f (reset_buf d)) (progress_buf d) (gym d).

Definition with_progress_buf (f : list Z -> list Z) (d : Drone) : Drone :=
  mkDrone (max_episode_length d) (dt d) (drone_mass d)
    (root_states d) (marker_states d) (target_root_positions d)
    (initial_root_states d) (initial_marker_states d)
    (thrusts d) (forces d) (rew_buf d) (reset_buf d) (f (progress_buf d)) (gym d).

(** One more call on [self.gym]. *)
Definition gym_call (c : GymCall) (d : Drone) : Drone :=
  mkDrone (max_episode_length d) (dt d) (drone_mass d)
    (root_states d) (marker_states d) (target_root_positions d)
    (initial_root_states d) (initial_marker_states d)
    (thrusts d) (forces d) (rew_buf d) (reset_buf d) (progress_buf d)
    (gym d ++ [c]).

(** Writers of single columns of a row. *)
Definition put_pos (p : Vec3) (s : RootState) : RootState :=
  mkRootState p (rs_quat s) (rs_linvel s) (rs_angvel s).

Definition put_quat (q : Quat) (s : RootState) : RootState :=
  mkRootState (rs_pos s) q (rs_linvel s) (rs_angvel s).

Definition put_x (x : R) (v : Vec3) : Vec3 := mkVec3 x (vy v) (vz v).
Definition put_y (y : R) (v : Vec3) : Vec3 := mkVec3 (vx v) y (vz v).
Definition put_z (z : R) (v : Vec3) : Vec3 := mkVec3 (vx v) (vy v) z.
Definition put_xy (xy : R * R) (v : Vec3) : Vec3 := mkVec3 xy.1 xy.2 (vz v).

Definition put_pos_x (x : R) (s : RootState) : RootState := put_pos (put_x x (rs_pos s)) s.
Definition put_pos_y (y : R) (s : RootState) : RootState := put_pos (put_y y (rs_pos s)) s.
Definition put_pos_z (z : R) (s : RootState) : RootState := put_pos (put_z z (rs_pos s)) s.

(** A row of columns 3:7 written from four floats, in that order. *)
Definition cols_3_7 (r : Vec4) : Quat := mkQuat (c0 r) (c1 r) (c2 r) (c3 r).
Definition put_cols_3_7 (r : Vec4) (s : RootState) : RootState :=
  put_quat (cols_3_7 r) s.

(** Replacement of a whole row. *)
Definition put_row {A} (new old : A) : A := new.

(** A scalar broadcast over a row. *)
Definition fill4 (x : R) (_ : Vec4) : Vec4 := mkVec4 x x x x.
Definition fill_bodies (x : R) (row : list Vec3) : list Vec3 :=
  (fun _ => mkVec3 x x x) <$> row.

(** The slice [:] of the leading dimension. *)
Definition all_rows {A} (t : list A) : list nat := seq 0 (length t).

(** ** Methods of the task *)

Section Methods.
Local Open Scope R_scope.

(** [Drone.set_targets] *)
Definition set_targets (env_ids : list nat) (d : Drone) : Drone * list Z :=
  let num_sets := length env_ids in
  let d := with_target_root_positions
             (scatter put_xy env_ids
                (replicate num_sets (0 * 10 - 5, 0 * 10 - 5))) d in
  let d := with_target_root_positions
             (scatter put_z env_ids (replicate num_sets (0 + 1))) d in
  let d := with_marker_states
             (scatter put_pos env_ids
                (gather env_ids (target_root_positions d))) d in
  let d := with_marker_states
             (scatter put_pos_z env_ids
                ((fun p => vz p + 0.0) <$> gather env_ids (marker_positions d))) d in
  let actor_indices := (fun e => all_actor_indices e 1) <$> env_ids in
  (d, actor_indices).

(** The rows built by the plate loop of [reset_idx]:
    [plate_quats[i] = [quat.w, quat.x, quat.y, quat.z]]. *)
Definition plate_quat (rnd : Draws) (i : nat) : Vec4 :=
  let tilt_angle := tilt_angle rnd i in
  let tilt_direction := tilt_direction rnd i in
  let quat :=
    from_axis_angle (mkVec3 (cos tilt_direction) (sin tilt_direction) 0)
                    tilt_angle in
  mkVec4 (qw quat) (qx quat) (qy quat) (qz quat).

(** [Drone.reset_idx] *)
Definition reset_idx (env_ids : list nat) (reset_plates : bool)
    (rnd : Draws) (d : Drone) : Drone * list Z :=
  let num_resets := length env_ids in
  let actor_indices := (fun e => all_actor_indices e 0) <$> env_ids in

  let d := with_root_states
             (scatter put_row env_ids
                (gather env_ids (initial_root_states d))) d in
  let d := with_root_states
             (scatter put_pos_x env_ids
                (zip_with Rplus
                   (vx <$> gather env_ids (root_positions d))
                   ((fun k => torch_rand_float (-1.5) 1.5 (rand_x rnd k))
                      <$> seq 0 num_resets))) d in
  let d := with_root_states
             (scatter put_pos_y env_ids
                (zip_with Rplus
                   (vy <$> gather env_ids (root_positions d))
                   ((fun k => torch_rand_float (-1.5) 1.5 (rand_y rnd k))
                      <$> seq 0 num_resets))) d in
  let d := with_root_states
             (scatter put_pos_z env_ids
                (zip_with Rplus
                   (vz <$> gather env_ids (root_positions d))
                   ((fun k => torch_rand_float (-0.2) 1.5 (rand_z rnd k))
                      <$> seq 0 num_resets))) d in

  let d :=
    if reset_plates then
      let plate_quats := plate_quat rnd <$> seq 0 num_resets in
      with_marker_states (scatter put_cols_3_7 env_ids plate_quats) d
    else d in

  let d := gym_call (set_actor_root_state_tensor_indexed
                       actor_indices (length actor_indices)) d in

  let d := with_reset_buf
             (scatter put_row env_ids (replicate num_resets 0%Z)) d in
  let d := with_progress_buf
             (scatter put_row env_ids (replicate num_resets 0%Z)) d in

  (d, unique actor_indices).

(** The clamped thrust of one rotor, for the whole batch:
    [torch.clamp(actions[:, k] * self.thrust_velocity_scale,
                 self.thrust_lower_limit, self.thrust_upper_limit)]. *)
Definition thrust_prop (col : Vec4 -> R) (actions : list Vec4) : list R :=
  (fun a => clamp (col a * thrust_velocity_scale)
                  thrust_lower_limit thrust_upper_limit) <$> actions.

(** [self.forces[:, body, 2] = vals] *)
Definition put_body_z (body : nat) (z : R) (row : list Vec3) : list Vec3 :=
  alter (put_z z) body row.

(** [Drone.pre_physics_step].  The four assignments to the force buffer
    need an action batch of [num_envs] rows or of one row, which is
    broadcast; with any other batch the first of them (line 225) raises
    RuntimeError, after the targets and resets of the call have been
    processed, and what this function gives from there on is not what
    the code does. *)
Definition pre_physics_step (_actions : list Vec4) (rnd : Draws)
    (d : Drone) : Drone :=
  let set_target_ids :=
    nonzero ((fun p => bool_decide (p `mod` 500 = 0)%Z) <$> progress_buf d) in
  let '(d, target_actor_indices) :=
    if bool_decide (0 < length set_target_ids)%nat
    then set_targets set_target_ids d
    else (d, []) in

  let reset_env_ids :=
    nonzero ((fun r => bool_decide (r <> 0%Z)) <$> reset_buf d) in
  let '(d, actor_indices) :=
    if bool_decide (0 < length reset_env_ids)%nat
    then
      let reset_plates :=
        forallb (fun p => bool_decide (p = 0%Z))
                (gather reset_env_ids (progress_buf d)) in
      reset_idx reset_env_ids reset_plates rnd d
    else (d, []) in

  let reset_indices := unique (target_actor_indices ++ actor_indices) in
  let d :=
    if bool_decide (0 < length reset_indices)%nat
    then gym_call (set_actor_root_state_tensor_indexed
                     reset_indices (length reset_indices)) d
    else d in

  let actions := _actions in
  let thrust_prop_0 := thrust_prop c0 actions in
  let thrust_prop_1 := thrust_prop c1 actions in
  let thrust_prop_2 := thrust_prop c2 actions in
  let thrust_prop_3 := thrust_prop c3 actions in

  (* [force_constant] is computed here and never read. *)

  let d := with_forces (fun f => scatter (put_body_z 1) (all_rows f)
                          (broadcast_rows (length f)
                             (Rmult (dt d) <$> thrust_prop_0)) f) d in
  let d := with_forces (fun f => scatter (put_body_z 2) (all_rows f)
                          (broadcast_rows (length f)
                             (Rmult (dt d) <$> thrust_prop_1)) f) d in
  let d := with_forces (fun f => scatter (put_body_z 3) (all_rows f)
                          (broadcast_rows (length f)
                             (Rmult (dt d) <$> thrust_prop_2)) f) d in
  let d := with_forces (fun f => scatter (put_body_z 4) (all_rows f)
                          (broadcast_rows (length f)
                             (Rmult (dt d) <$> thrust_prop_3)) f) d in

  let d := with_thrusts
             (scatter fill4 reset_env_ids
                (replicate (length reset_env_ids) 0.0)) d in
  let d := with_forces
             (scatter fill_bodies reset_env_ids
                (replicate (length reset_env_ids) 0.0)) d in

  gym_call (apply_rigid_body_force_tensors (forces d)) d.

(** [Drone.compute_reward].  [self.max_episode_length] is the int read
    from the configuration in [__init__]; it is passed as it is to the
    scripted function, whose parameter [max_episode_length] carries no
    annotation. *)
Definition compute_reward (d : Drone) : Outcome Drone :=
  match
    call_compute_drone_reward
      (root_positions d) (target_root_positions d) (root_quats d)
      (root_linvels d) (root_angvels d)
      (reset_buf d) (progress_buf d) (PyInt (max_episode_length d))
  with
  | Some (rew, reset) =>
      returned (with_reset_buf (fun _ => reset) (with_rew_buf (fun _ => rew) d))
  | None => raised RuntimeError d
  end.

End Methods.

(** ** The reward kernel in IEEE single precision

    The tensors of the task are float32.  This module re-reads the
    lines of [compute_drone_reward] for one environment (every tensor
    operation of the function is element-wise in the batch dimension)
    over the binary32 format of [SpecFloat], rounding to nearest even,
    so that concrete inputs can be evaluated as the hardware would. *)

Module Binary32.
Import Floats.SpecFloat.
Local Open Scope Z_scope.

Definition prec : Z := 24.
Definition emax : Z := 128.

(** The single-precision value nearest to [m * 2^e]. *)
Definition lit (m e : Z) : spec_float := binary_normalize prec emax m e false.

Definition add := SFadd prec emax.
Definition sub := SFsub prec emax.
Definition mul := SFmul prec emax.
Definition div := SFdiv prec emax.
Definition sqrt := SFsqrt prec emax.
Definition abs := SFabs.
Definition ltb := SFltb.

Record vec3 := mk3 { x3 : spec_float; y3 : spec_float; z3 : spec_float }.
Record quat := mk4 {
  xq : spec_float; yq : spec_float; zq : spec_float; wq : spec_float
}.

(** Modelled from the spec: [quat_axis] is missing from the sources;
    this is component 2 of [quat_axis(q, 2)], the body-frame z-axis
    rotated by the orientation quaternion into the world frame, with
    the operations of [TorchJitUtils.quat_rotate] in the same order. *)
Definition up_z (q : quat) : spec_float :=
  let v := mk3 (lit 0 0) (lit 0 0) (lit 1 0) in
  let a := mul (z3 v) (sub (mul (lit 2 0) (mul (wq q) (wq q))) (lit 1 0)) in
  let b := mul (mul (sub (mul (xq q) (y3 v)) (mul (yq q) (x3 v))) (wq q))
               (lit 2 0) in
  let c := mul (mul (zq q)
                  (add (add (mul (xq q) (x3 v)) (mul (yq q) (y3 v)))
                       (mul (zq q) (z3 v))))
               (lit 2 0) in
  add (add a b) c.

(** One environment of [compute_drone_reward]: its reward and reset. *)
Definition drone_reward (root_position target_root_position : vec3)
    (root_quat : quat) (root_angvel : vec3)
    (progress max_episode_length : Z) : spec_float * Z :=
  let dx := sub (x3 target_root_position) (x3 root_position) in
  let dy := sub (y3 target_root_position) (y3 root_position) in
  let dz := sub (z3 target_root_position) (z3 root_position) in
  let target_dist := sqrt (add (add (mul dx dx) (mul dy dy)) (mul dz dz)) in
  let pos_reward := div (lit 3 0) (add (lit 1 0) (mul target_dist target_dist)) in

  let ups_z := up_z root_quat in
  let tiltage := abs (sub (lit 1 0) ups_z) in
  let up_reward := div (lit 1 0) (add (lit 1 0) (mul tiltage tiltage)) in

  let spinnage := abs (z3 root_angvel) in
  let spinnage_reward := div (lit 1 0) (add (lit 1 0) (mul spinnage spinnage)) in

  let reward := add pos_reward (mul pos_reward (add up_reward spinnage_reward)) in

  let ones := 1 in
  let die := 0 in
  let die := if ltb (lit 8 0) target_dist then ones else die in
  let die := if ltb (z3 root_position) (lit 1 (-1)) then ones else die in
  let die := if ltb ups_z (lit 0 0) then ones else die in

  let reset := if max_episode_length - 1 <=? progress then ones else die in
  (reward, reset).

(** One row of the action batch. *)
Record vec4 := mk4a {
  a0 : spec_float; a1 : spec_float; a2 : spec_float; a3 : spec_float
}.

Definition is_nan (x : spec_float) : bool :=
  match x with
  | S754_nan => true
  | _ => false
  end.

Definition leb := SFleb.

(** [torch.clamp(x, lo, hi)] on one entry: an entry below [lo] becomes
    [lo], an entry above [hi] becomes [hi], any other entry is kept;
    both comparisons fail on NaN, which is therefore kept. *)
Definition clamp (x lo hi : spec_float) : spec_float :=
  if ltb x lo then lo else if ltb hi x then hi else x.

(** The constants [thrust_lower_limit], [thrust_upper_limit] and
    [thrust_velocity_scale] of [Drone.__init__]. *)
Definition thrust_lower_limit : spec_float := lit 0 0.
Definition thrust_upper_limit : spec_float := lit 2000 0.
Definition thrust_velocity_scale : spec_float := lit 2000 0.

(** [torch.clamp(actions[:, k] * self.thrust_velocity_scale,
                 self.thrust_lower_limit, self.thrust_upper_limit)] *)
Definition thrust_prop (col : vec4 -> spec_float) (actions : list vec4)
    : list spec_float :=
  (fun a => clamp (mul (col a) thrust_velocity_scale)
                  thrust_lower_limit thrust_upper_limit) <$> actions.

End Binary32.

(** ** The stages of [pre_physics_step]

    The index sets and the intermediate states of one call, named so
    that properties can refer to them; [pre_physics_step_stages] below
    proves that the method is their composition. *)

Section Stages.
Local Open Scope R_scope.

(** [(self.progress_buf % 500 == 0).nonzero(...)] *)
Definition set_target_ids (d : Drone) : list nat :=
  nonzero ((fun p => bool_decide (p `mod` 500 = 0)%Z) <$> progress_buf d).

(** [self.reset_buf.nonzero(...)] *)
Definition reset_env_ids (d : Drone) : list nat :=
  nonzero ((fun r => bool_decide (r <> 0%Z)) <$> reset_buf d).

(** [(self.progress_buf[reset_env_ids] == 0).all().item()] *)
Definition reset_plates_at (d : Drone) : bool :=
  forallb (fun p => bool_decide (p = 0%Z))
          (gather (reset_env_ids d) (progress_buf d)).

(** The orientation columns of the plate actors. *)
Definition plate_orientations (d : Drone) : list Quat :=
  rs_quat <$> marker_states d.

(** The action batch has a shape the force assignments accept:
    [num_envs] rows, or one row. *)
Definition batch_fits (n : nat) (actions : list Vec4) : Prop :=
  length actions = n \/ length actions = 1%nat.

(** The action row the force assignments read for environment [e]. *)
Definition action_of (n : nat) (actions : list Vec4) (e : nat) : option Vec4 :=
  broadcast_rows n actions !! e.

(** The force buffer has [bodies_per_env] bodies in every environment. *)
Definition force_rows_shaped (d : Drone) : Prop :=
  Forall (fun row => length row = bodies_per_env) (forces d).

(** The indexed root-state writes among the calls made so far. *)
Definition root_state_writes (d : Drone) : list GymCall :=
  List.filter is_root_state_write (gym d).

(** Lines 202-205. *)
Definition target_stage (d : Drone) : Drone * list Z :=
  if bool_decide (0 < length (set_target_ids d))%nat
  then set_targets (set_target_ids d) d
  else (d, []).

(** Lines 207-211. *)
Definition reset_stage (rnd : Draws) (d : Drone) : Drone * list Z :=
  if bool_decide (0 < length (reset_env_ids d))%nat
  then reset_idx (reset_env_ids d) (reset_plates_at d) rnd d
  else (d, []).

(** Lines 213-215. *)
Definition push_stage (target_actor_indices actor_indices : list Z)
    (d : Drone) : Drone :=
  let reset_indices := unique (target_actor_indices ++ actor_indices) in
  if bool_decide (0 < length reset_indices)%nat
  then gym_call (set_actor_root_state_tensor_indexed
                   reset_indices (length reset_indices)) d
  else d.

(** Lines 217-233. *)
Definition force_stage (actions : list Vec4) (reset_env_ids : list nat)
    (d : Drone) : Drone :=
  let d := with_forces (fun f => scatter (put_body_z 1) (all_rows f)
                          (broadcast_rows (length f)
                             (Rmult (dt d) <$> thrust_prop c0 actions)) f) d in
  let d := with_forces (fun f => scatter (put_body_z 2) (all_rows f)
                          (broadcast_rows (length f)
                             (Rmult (dt d) <$> thrust_prop c1 actions)) f) d in
  let d := with_forces (fun f => scatter (put_body_z 3) (all_rows f)
                          (broadcast_rows (length f)
                             (Rmult (dt d) <$> thrust_prop c2 actions)) f) d in
  let d := with_forces (fun f => scatter (put_body_z 4) (all_rows f)
                          (broadcast_rows (length f)
                             (Rmult (dt d) <$> thrust_prop c3 actions)) f) d in
  let d := with_thrusts
             (scatter fill4 reset_env_ids
                (replicate (length reset_env_ids) 0.0)) d in
  let d := with_forces
             (scatter fill_bodies reset_env_ids
                (replicate (length reset_env_ids) 0.0)) d in
  gym_call (apply_rigid_body_force_tensors (forces d)) d.


End Stages.

(** ** Observations, the epoch counter and the step after physics

    The attributes of the task object that [compute_observations] and
    [post_physics_step] use beside the buffers of [Drone]. *)

(** One row of [obs_buf]: 13 floats, scaled displacement to the target
    0:3, quaternion 3:7, scaled linear velocity 7:10, scaled angular
    velocity 10:13. *)
Record Observation := mkObservation {
  obs_to_target : Vec3;
  obs_quat : Quat;
  obs_linvel : Vec3;
  obs_angvel : Vec3
}.

Record Task := mkTask {
  drone : Drone;
  obs_buf : list Observation;
  epoch_count : Z
}.

Section PostPhysics.
Local Open Scope R_scope.

(** [v / k], element-wise. *)
Definition vdiv (a : Vec3) (k : R) : Vec3 :=
  mkVec3 (vx a / k) (vy a / k) (vz a / k).

Definition put_obs_0_3 (v : Vec3) (o : Observation) : Observation :=
  mkObservation v (obs_quat o) (obs_linvel o) (obs_angvel o).
Definition put_obs_3_7 (q : Quat) (o : Observation) : Observation :=
  mkObservation (obs_to_target o) q (obs_linvel o) (obs_angvel o).
Definition put_obs_7_10 (v : Vec3) (o : Observation) : Observation :=
  mkObservation (obs_to_target o) (obs_quat o) v (obs_angvel o).
Definition put_obs_10_13 (v : Vec3) (o : Observation) : Observation :=
  mkObservation (obs_to_target o) (obs_quat o) (obs_linvel o) v.

(** [Drone.compute_observations]; the value it returns is the
    [obs_buf] of the result. *)
Definition compute_observations (t : Task) : Task :=
  let d := drone t in
  let obs := obs_buf t in
  let obs := scatter put_obs_0_3 (all_rows obs)
               ((fun v => vdiv v 3)
                  <$> zip_with vsub (target_root_positions d) (root_positions d))
               obs in
  let obs := scatter put_obs_3_7 (all_rows obs) (root_quats d) obs in
  let obs := scatter put_obs_7_10 (all_rows obs)
               ((fun v => vdiv v 2) <$> root_linvels d) obs in
  let obs := scatter put_obs_10_13 (all_rows obs)
               ((fun v => vdiv v PI) <$> root_angvels d) obs in
  mkTask d obs (epoch_count t).

(** [Drone.post_physics_step].  The two refresh calls reload the root
    tensor from the simulator: [refreshed_root] and [refreshed_marker]
    are the rows it reports for the drone and the plate actors.  The
    local [reset_plates] is assigned and never read.  An exception of
    [compute_reward] ends the call.  The debug branch after it only
    reads buffers and draws lines in the viewer. *)
Definition post_physics_step (refreshed_root refreshed_marker : list RootState)
    (t : Task) : Outcome Task :=
  let d := with_progress_buf (fmap (fun p => p + 1)%Z) (drone t) in
  let epochs :=
    if forallb (fun p => bool_decide (max_episode_length d <= p)%Z)
               (progress_buf d)
    then (epoch_count t + 1)%Z
    else epoch_count t in
  let d := with_root_states (fun _ => refreshed_root) d in
  let d := with_marker_states (fun _ => refreshed_marker) d in
  let t := compute_observations (mkTask d (obs_buf t) epochs) in
  match compute_reward (drone t) with
  | returned d' => returned (mkTask d' (obs_buf t) (epoch_count t))
  | raised err d' => raised err (mkTask d' (obs_buf t) (epoch_count t))
  end.

(** The action column whose thrust [pre_physics_step] writes to the
    z entry of a body of the force buffer: bodies 1 to 4 carry the
    rotors, the other bodies receive nothing. *)
Definition rotor_column (body : nat) : option (Vec4 -> R) :=
  match body with
  | 1%nat => Some c0
  | 2%nat => Some c1
  | 3%nat => Some c2
  | 4%nat => Some c3
  | _ => None
  end.

(** A row of zeros in the thrust buffer. *)
Definition zero4 (v : Vec4) : Prop := c0 v = 0 /\ c1 v = 0 /\ c2 v = 0 /\ c3 v = 0.

(** The index list of the combined root-state write of one call of
    [pre_physics_step]. *)
Definition combined_indices (d : Drone) : list Z :=
  unique (((fun e => all_actor_indices e 1) <$> set_target_ids d)
          ++ unique ((fun e => all_actor_indices e 0) <$> reset_env_ids d)).

End PostPhysics.

(** ** Concrete inputs *)

Module Samples.
Local Open Scope R_scope.

(** At the default target, upright, at rest. *)
Definition hover : Vec3 := mkVec3 0 0 1.
Definition upright : Quat := mkQuat 0 0 0 1.
Definition still : Vec3 := mkVec3 0 0 0.

(** Below the altitude bound (scenario 8 of section 8). *)
Definition low : Vec3 := mkVec3 0 0 0.3.

Definition rest : RootState := mkRootState hover upright still still.

(** Draws in the middle of the unit interval, and a plate left flat. *)
Definition mid_draws : Draws :=
  mkDraws (fun _ => 0.5) (fun _ => 0.5) (fun _ => 0.5) (fun _ => 0) (fun _ => 0).

Definition idle : Vec4 := mkVec4 0 0 0 0.

(** Draws that tilt every plate by 0.1 rad about the x axis. *)
Definition tilted_draws : Draws :=
  mkDraws (fun _ => 0.5) (fun _ => 0.5) (fun _ => 0.5) (fun _ => 0.1) (fun _ => 0).

(** A task with one environment, [k] ticks into its episode, with the
    given reset flag. *)
Definition one_env (reset progress : Z) : Drone :=
  mkDrone 1000 (1 / 60) 1
    [rest] [rest] [hover] [rest] [rest]
    [idle] [replicate bodies_per_env still]
    [0] [reset] [progress] [].

(** The same inputs in single precision, and a drone about [1.5e20]
    away from its target along x ([2^67], a finite float32). *)
Definition hover32 : Binary32.vec3 :=
  Binary32.mk3 (Binary32.lit 0 0) (Binary32.lit 0 0) (Binary32.lit 1 0).
Definition upright32 : Binary32.quat :=
  Binary32.mk4 (Binary32.lit 0 0) (Binary32.lit 0 0) (Binary32.lit 0 0)
               (Binary32.lit 1 0).
Definition still32 : Binary32.vec3 :=
  Binary32.mk3 (Binary32.lit 0 0) (Binary32.lit 0 0) (Binary32.lit 0 0).
Definition far32 : Binary32.vec3 :=
  Binary32.mk3 (Binary32.lit 1 67) (Binary32.lit 0 0) (Binary32.lit 1 0).

(** An action row whose first component is NaN, and one whose
    components are far outside [-1, 1] or infinite. *)
Definition nan_action32 : Binary32.vec4 :=
  Binary32.mk4a Floats.SpecFloat.S754_nan (Binary32.lit 0 0)
                (Binary32.lit 0 0) (Binary32.lit 0 0).
Definition wild_action32 : Binary32.vec4 :=
  Binary32.mk4a (Binary32.lit 1 100) (Binary32.lit (-3) 0)
                (Floats.SpecFloat.S754_infinity true)
                (Floats.SpecFloat.S754_infinity false).

(** A second environment, one unit away from its target along x, and
    batches of two. *)
Definition aside : Vec3 := mkVec3 1 0 1.
Definition rest_aside : RootState := mkRootState aside upright still still.
Definition blank : Observation := mkObservation still upright still still.

Definition two_envs (reset0 reset1 progress0 progress1 : Z) : Drone :=
  mkDrone 1000 (1 / 60) 1
    [rest; rest_aside] [rest; rest] [hover; hover] [rest; rest_aside] [rest; rest]
    [idle; idle] [replicate bodies_per_env still; replicate bodies_per_env still]
    [0; 0] [reset0; reset1] [progress0; progress1] [].

End Samples.

(** * Properties *)

(** ** Tensor operations *)

Section TensorFacts.
Context {A B : Type}.
Implicit Types (ids : list nat) (t : list A) (vals : list B).

Lemma lookup_where (cond : list bool) (a b : list A) (i : nat) (c : bool) x y :
  cond !! i = Some c -> a !! i = Some x -> b !! i = Some y ->
  where_ cond a b !! i = Some (if c then x else y).
Proof.
  intros Hc Ha Hb. unfold where_.
  apply lookup_zip_with_Some. exists c, (x, y). split; [done|].
  split; [done|]. apply lookup_zip_with_Some. by exists x, y.
Qed.

Lemma elem_of_nonzero_from (i : nat) (mask : list bool) (e : nat) :
  e ∈ nonzero_from i mask <-> exists j, e = (i + j)%nat /\ mask !! j = Some true.
Proof.
  revert i. induction mask as [|b mask IH]; intros i; simpl.
  - split; [by intros ?%elem_of_nil | by intros (j & _ & ?)].
  - assert (e ∈ nonzero_from (S i) mask <->
            exists j, e = (i + S j)%nat /\ mask !! j = Some true) as IH'.
    { rewrite IH. split; intros (j & -> & Hj); exists j; split; auto; lia. }
    destruct b.
    + rewrite elem_of_cons, IH'. split.
      * intros [-> | (j & -> & Hj)]; [exists 0%nat | exists (S j)]; split; auto; lia.
      * intros ([|j] & -> & Hj); [left; lia | right; eauto].
    + rewrite IH'. split.
      * intros (j & -> & Hj). by exists (S j).
      * intros ([|j] & -> & Hj); [done | eauto].
Qed.

Lemma elem_of_nonzero (mask : list bool) (e : nat) :
  e ∈ nonzero mask <-> mask !! e = Some true.
Proof.
  unfold nonzero. rewrite elem_of_nonzero_from. split.
  - by intros (j & -> & Hj).
  - intros He. by exists e.
Qed.

Lemma NoDup_nonzero_from i (mask : list bool) : NoDup (nonzero_from i mask).
Proof.
  revert i. induction mask as [|b mask IH]; intros i; simpl.
  - constructor.
  - destruct b; [|apply IH]. constructor; [|apply IH].
    rewrite elem_of_nonzero_from. intros (j & Hj & _). lia.
Qed.

Lemma NoDup_nonzero (mask : list bool) : NoDup (nonzero mask).
Proof. apply NoDup_nonzero_from. Qed.

Lemma nonzero_lt (mask : list bool) (e : nat) : e ∈ nonzero mask -> (e < length mask)%nat.
Proof. rewrite elem_of_nonzero. apply lookup_lt_Some. Qed.

Lemma gather_lookup ids t (k e : nat) :
  Forall (fun e => e < length t)%nat ids ->
  ids !! k = Some e -> gather ids t !! k = t !! e.
Proof.
  unfold gather. intros Hin. revert k.
  induction Hin as [|i ids Hi Hin IH]; intros k Hk; [done|].
  destruct (lookup_lt_is_Some_2 t i Hi) as [x Hx]. simpl. rewrite Hx. simpl.
  destruct k as [|k]; simpl in *; [by simplify_eq | by apply IH].
Qed.

Lemma length_gather ids t :
  Forall (fun e => e < length t)%nat ids -> length (gather ids t) = length ids.
Proof.
  unfold gather. induction 1 as [|i ids Hi Hin IH]; [done|].
  destruct (lookup_lt_is_Some_2 t i Hi) as [x Hx]. simpl. rewrite Hx. simpl.
  f_equal. exact IH.
Qed.

Lemma scatter_cons (put : B -> A -> A) i ids v vals t :
  scatter put (i :: ids) (v :: vals) t = scatter put ids vals (alter (put v) i t).
Proof. done. Qed.

Lemma length_scatter (put : B -> A -> A) ids vals t :
  length (scatter put ids vals t) = length t.
Proof.
  revert vals t. induction ids as [|i ids IH]; intros [|v vals] t; try done.
  rewrite scatter_cons, IH. apply length_alter.
Qed.

Lemma scatter_lookup_notin (put : B -> A -> A) ids vals t (e : nat) :
  e ∉ ids -> scatter put ids vals t !! e = t !! e.
Proof.
  revert vals t. induction ids as [|i ids IH]; intros [|v vals] t He; try done.
  rewrite scatter_cons. apply not_elem_of_cons in He as [Hne He].
  rewrite IH by done. by apply list_lookup_alter_ne.
Qed.

Lemma scatter_lookup_in (put : B -> A -> A) ids vals t (k e : nat) v :
  NoDup ids -> ids !! k = Some e -> vals !! k = Some v ->
  scatter put ids vals t !! e = put v <$> t !! e.
Proof.
  revert vals t k. induction ids as [|i ids IH]; intros [|w vals] t k Hnd Hk Hv;
    try done.
  apply NoDup_cons in Hnd as [Hi Hnd]. rewrite scatter_cons.
  destruct k as [|k]; simpl in *; simplify_eq.
  - rewrite scatter_lookup_notin by done. apply list_lookup_alter_eq.
  - rewrite (IH _ _ k) by done.
    rewrite list_lookup_alter_ne; [done|].
    intros ->. apply Hi. by eapply list_elem_of_lookup_2.
Qed.

End TensorFacts.

Lemma elem_of_insert_unique (x y : Z) (l : list Z) :
  x ∈ insert_unique y l <-> x = y \/ x ∈ l.
Proof.
  induction l as [|z l IH]; simpl.
  - rewrite list_elem_of_singleton. split; [auto|]. by intros [?|?%elem_of_nil].
  - destruct (Z.ltb_spec y z); [by rewrite elem_of_cons|].
    destruct (Z.eqb_spec y z) as [->|Hne].
    + rewrite elem_of_cons. tauto.
    + rewrite !elem_of_cons, IH. tauto.
Qed.

Lemma elem_of_unique (x : Z) (l : list Z) : x ∈ unique l <-> x ∈ l.
Proof.
  induction l as [|y l IH]; simpl; [done|].
  rewrite elem_of_insert_unique, elem_of_cons, IH. done.
Qed.

Lemma insert_unique_sorted y l :
  StronglySorted Z.lt l -> StronglySorted Z.lt (insert_unique y l).
Proof.
  induction 1 as [|z l Hs IH Hz]; simpl.
  - repeat constructor.
  - destruct (Z.ltb_spec y z) as [Hlt|Hge].
    + constructor; [by constructor|]. constructor; [done|].
      eapply Forall_impl; [exact Hz|]. intros; simpl in *; lia.
    + destruct (Z.eqb_spec y z) as [->|Hne]; [by constructor|].
      constructor; [done|]. apply Forall_forall. intros x Hx.
      apply elem_of_insert_unique in Hx as [->|Hx]; [lia|].
      by eapply Forall_forall in Hz.
Qed.

Lemma unique_sorted l : StronglySorted Z.lt (unique l).
Proof.
  induction l as [|y l IH]; simpl; [constructor|]. by apply insert_unique_sorted.
Qed.

Lemma unique_NoDup l : NoDup (unique l).
Proof.
  pose proof (unique_sorted l) as Hs.
  induction Hs as [|z k Hs IH Hz]; constructor; [|done].
  intros Hin. eapply Forall_forall in Hz; [|exact Hin]. lia.
Qed.

(** ** The evaluator, element by element *)

Section RewardFacts.
Local Open Scope R_scope.

Lemma inv_one_plus_square (x : R) : 0 < 1.0 / (1.0 + x * x) <= 1.
Proof.
  assert (1 <= 1.0 + x * x) as Hden by nra.
  split.
  - apply Rdiv_lt_0_compat; lra.
  - apply (Rmult_le_reg_r (1.0 + x * x)); [lra|].
    unfold Rdiv. rewrite Rmult_assoc, Rinv_l by lra. lra.
Qed.

Lemma three_over_one_plus_square (x : R) : 0 < 3.0 / (1.0 + x * x) <= 3.
Proof.
  replace (3.0 / (1.0 + x * x)) with (3 * (1.0 / (1.0 + x * x)))
    by (unfold Rdiv; lra).
  pose proof (inv_one_plus_square x). lra.
Qed.

Lemma reward_at_bounds pos target q angvel :
  0 < reward_at pos target q angvel <= 9.
Proof.
  unfold reward_at.
  pose proof (three_over_one_plus_square (target_dist_at target pos)) as Hp.
  pose proof (inv_one_plus_square (Rabs (1 - up_z_at q))) as Hu.
  pose proof (inv_one_plus_square (Rabs (vz angvel))) as Hs.
  simpl. nra.
Qed.

Lemma compute_drone_reward_at
    pos tgt quats linv angv rb pb L (i : nat) p t q w r g :
  pos !! i = Some p -> tgt !! i = Some t -> quats !! i = Some q ->
  angv !! i = Some w -> rb !! i = Some r -> pb !! i = Some g ->
  (compute_drone_reward pos tgt quats linv angv rb pb L).1 !! i
    = Some (reward_at p t q w) /\
  (compute_drone_reward pos tgt quats linv angv rb pb L).2 !! i
    = Some (reset_at p t q g L).
Proof.
  intros Hp Ht Hq Hw Hr Hg. unfold compute_drone_reward. simpl.
  assert (zip_with vsub tgt pos !! i = Some (vsub t p)) as Hd.
  { apply lookup_zip_with_Some. by exists t, p. }
  split.
  - apply lookup_zip_with_Some.
    eexists _, _. split; [|split].
    2:{ rewrite !list_lookup_fmap, Hd. reflexivity. }
    2:{ apply lookup_zip_with_Some. eexists _, _. split; [reflexivity|]. split.
        - rewrite !list_lookup_fmap, Hd. reflexivity.
        - apply lookup_zip_with_Some. eexists _, _. split; [reflexivity|].
          rewrite !list_lookup_fmap, Hq, Hw. done. }
    reflexivity.
  - unfold reset_at, die_at.
    erewrite lookup_where; [reflexivity| | |].
    + rewrite list_lookup_fmap, Hg. reflexivity.
    + rewrite list_lookup_fmap, Hr. reflexivity.
    + erewrite lookup_where; [reflexivity| | |].
      * rewrite !list_lookup_fmap, Hq. reflexivity.
      * rewrite list_lookup_fmap, Hr. reflexivity.
      * erewrite lookup_where; [reflexivity| | |].
        -- rewrite list_lookup_fmap, Hp. reflexivity.
        -- rewrite list_lookup_fmap, Hr. reflexivity.
        -- erewrite lookup_where; [reflexivity| | |].
           ++ rewrite !list_lookup_fmap, Hd. reflexivity.
           ++ rewrite list_lookup_fmap, Hr. reflexivity.
           ++ rewrite list_lookup_fmap, Hr. reflexivity.
Qed.

(** Every entry of the returned reward tensor is the kernel at some
    row of the inputs. *)
Lemma compute_drone_reward_inv
    pos tgt quats linv angv rb pb L (i : nat) x :
  (compute_drone_reward pos tgt quats linv angv rb pb L).1 !! i = Some x ->
  exists p t q w, x = reward_at p t q w.
Proof.
  unfold compute_drone_reward. simpl. intros H.
  apply lookup_zip_with_Some in H as (a & b & -> & Ha & Hb).
  apply lookup_zip_with_Some in Hb as (a' & c & -> & Ha' & Hc).
  apply lookup_zip_with_Some in Hc as (u & s & -> & Hu & Hs).
  rewrite Ha in Ha'. simplify_eq.
  rewrite !list_lookup_fmap in Ha. rewrite !list_lookup_fmap in Hu.
  rewrite !list_lookup_fmap in Hs.
  destruct (zip_with vsub tgt pos !! i) as [d|] eqn:Hd; simplify_eq/=.
  apply lookup_zip_with_Some in Hd as (t & p & -> & Ht & Hp).
  destruct (quats !! i) as [q|]; simplify_eq/=.
  destruct (angv !! i) as [w|]; simplify_eq/=.
  exists p, t, q, w. reflexivity.
Qed.

End RewardFacts.

(** ** Reward and termination *)

Section RewardClaims.
Local Open Scope R_scope.
Import Samples.

Lemma target_dist_at_same (p : Vec3) : target_dist_at p p = 0.
Proof.
  unfold target_dist_at, vsum, vsquare, vsub. simpl.
  replace ((vx p - vx p) * (vx p - vx p) + (vy p - vy p) * (vy p - vy p)
           + (vz p - vz p) * (vz p - vz p)) with 0 by ring.
  apply sqrt_0.
Qed.

Lemma up_z_at_upright : up_z_at upright = 1.
Proof.
  unfold up_z_at, quat_axis, quat_rotate, basis_vec, upright. simpl. ring.
Qed.

Lemma reward_at_hover : reward_at hover hover upright still = 9.
Proof.
  unfold reward_at. rewrite target_dist_at_same, up_z_at_upright.
  replace (1 - 1) with 0 by ring. simpl. rewrite Rabs_R0.
  replace (1.0 + 0 * 0) with 1 by lra. lra.
Qed.

(** C1, as stated, fails: with the drone exactly at its target,
    upright and not spinning, the returned reward is 9, above 6. *)
Lemma reward_above_six :
  exists r,
    (compute_drone_reward [hover] [hover] [upright] [still] [still]
       [0%Z] [0%Z] 1000).1 !! 0%nat = Some r /\
    r = 9 /\ ~ (0 < r <= 6).
Proof.
  exists (reward_at hover hover upright still). split; [|split].
  - eapply compute_drone_reward_at; reflexivity.
  - apply reward_at_hover.
  - rewrite reward_at_hover. lra.
Qed.

(** C1 (amended): every entry of the reward tensor returned by
    [compute_drone_reward] is at least 0 and at most 9, that is
    [pos_reward <= 3] plus [pos_reward * (up_reward + spinnage_reward)
    <= 3 * 2].  The lower bound is not strict: in single precision the
    reward of a finite input can be 0 ([binary32_reward_overflow]). *)
Theorem reward_between_zero_and_nine
    pos tgt quats linv angv rb pb L (i : nat) (r : R) :
  (compute_drone_reward pos tgt quats linv angv rb pb L).1 !! i = Some r ->
  0 <= r <= 9.
Proof.
  intros (p & t & q & w & ->)%compute_drone_reward_inv.
  pose proof (reward_at_bounds p t q w). lra.
Qed.

Lemma reward_between_zero_and_nine_witness :
  0 <= reward_at hover hover upright still <= 9.
Proof.
  apply (reward_between_zero_and_nine
           [hover] [hover] [upright] [still] [still] [0%Z] [0%Z] 1000 0).
  eapply compute_drone_reward_at; reflexivity.
Defined.

Lemma reset_at_time_limit pos target q g L :
  (L - 1 <= g)%Z -> reset_at pos target q g L = 1%Z.
Proof. intros H. unfold reset_at. by rewrite bool_decide_eq_true_2. Qed.

Lemma die_at_one_iff pos target q :
  die_at pos target q = 1%Z <-> too_far pos target \/ too_low pos \/ flipped q.
Proof.
  unfold die_at. repeat case_bool_decide; split; intros Hx; try done; tauto.
Qed.

(** C2: an environment whose progress counter equals
    [max_episode_length - 1] gets [reset = 1], whatever [die] is. *)
Theorem time_limit_forces_reset
    pos tgt quats linv angv rb pb L (i : nat) p t q w r g :
  pos !! i = Some p -> tgt !! i = Some t -> quats !! i = Some q ->
  angv !! i = Some w -> rb !! i = Some r -> pb !! i = Some g ->
  g = (L - 1)%Z ->
  (compute_drone_reward pos tgt quats linv angv rb pb L).2 !! i = Some 1%Z.
Proof.
  intros Hp Ht Hq Hw Hr Hg ->.
  destruct (compute_drone_reward_at pos tgt quats linv angv rb pb L i
              p t q w r (L - 1)%Z Hp Ht Hq Hw Hr Hg) as [_ ->].
  f_equal. apply reset_at_time_limit. lia.
Qed.

Lemma time_limit_forces_reset_witness :
  (compute_drone_reward [hover] [hover] [upright] [still] [still]
     [0%Z] [9%Z] 10).2 !! 0%nat = Some 1%Z.
Proof.
  eapply (time_limit_forces_reset _ _ _ _ _ _ _ 10 0
            hover hover upright still 0%Z 9%Z); reflexivity.
Defined.

(** C3: each of the three conditions (distance to the target above
    8.0, altitude below 0.5, up axis pointing below the horizon) forces
    [reset = 1]; and for an environment whose progress counter is below
    the time limit [max_episode_length - 1], [reset = 1] exactly when
    one of them holds. *)
Theorem early_termination_iff
    pos tgt quats linv angv rb pb L (i : nat) p t q w r g :
  pos !! i = Some p -> tgt !! i = Some t -> quats !! i = Some q ->
  angv !! i = Some w -> rb !! i = Some r -> pb !! i = Some g ->
  exists x,
    (compute_drone_reward pos tgt quats linv angv rb pb L).2 !! i = Some x /\
    (too_far p t -> x = 1%Z) /\ (too_low p -> x = 1%Z) /\
    (flipped q -> x = 1%Z) /\
    ((g < L - 1)%Z -> (x = 1%Z <-> too_far p t \/ too_low p \/ flipped q)).
Proof.
  intros Hp Ht Hq Hw Hr Hg.
  destruct (compute_drone_reward_at pos tgt quats linv angv rb pb L i
              p t q w r g Hp Ht Hq Hw Hr Hg) as [_ Hreset].
  exists (reset_at p t q g L). split; [done|].
  assert (too_far p t \/ too_low p \/ flipped q -> reset_at p t q g L = 1%Z)
    as Hdie.
  { intros Hx. unfold reset_at. case_bool_decide; [done|].
    by apply die_at_one_iff. }
  repeat split; auto.
  - unfold reset_at. rewrite bool_decide_eq_false_2 by lia.
    apply die_at_one_iff.
Qed.

Lemma early_termination_iff_witness :
  exists x,
    (compute_drone_reward [low] [hover] [upright] [still] [still]
       [0%Z] [2%Z] 10).2 !! 0%nat = Some x /\
    (too_far low hover -> x = 1%Z) /\ (too_low low -> x = 1%Z) /\
    (flipped upright -> x = 1%Z) /\
    ((2 < 10 - 1)%Z ->
     (x = 1%Z <-> too_far low hover \/ too_low low \/ flipped upright)).
Proof.
  eapply (early_termination_iff _ _ _ _ _ _ _ 10 0
            low hover upright still 0%Z 2%Z); reflexivity.
Defined.

End RewardClaims.

(** ** The methods, stage by stage *)

Section MethodFacts.
Local Open Scope R_scope.

Lemma pre_physics_step_stages actions rnd d :
  pre_physics_step actions rnd d =
    force_stage actions (reset_env_ids (target_stage d).1)
      (push_stage (target_stage d).2
         (reset_stage rnd (target_stage d).1).2
         (reset_stage rnd (target_stage d).1).1).
Proof.
  unfold pre_physics_step, target_stage, reset_stage, push_stage, force_stage,
    set_target_ids, reset_env_ids, reset_plates_at.
  case_bool_decide.
  - destruct (set_targets _ d) as [d1 ta]. simpl.
    case_bool_decide; [|reflexivity].
    by destruct (reset_idx _ _ rnd d1) as [d2 ra].
  - simpl. case_bool_decide; [|reflexivity].
    by destruct (reset_idx _ _ rnd d) as [d2 ra].
Qed.

(** A column write leaves every other column of the rows alone. *)
Lemma scatter_frame {A B C} (proj : A -> C) (put : B -> A -> A)
    (ids : list nat) (vals : list B) (t : list A) :
  (forall v a, proj (put v a) = proj a) ->
  proj <$> scatter put ids vals t = proj <$> t.
Proof.
  intros Hput. revert vals t.
  induction ids as [|i ids IH]; intros [|v vals] t; try done.
  rewrite scatter_cons, IH. apply list_eq. intros j.
  rewrite !list_lookup_fmap.
  destruct (decide (i = j)) as [->|Hne].
  - rewrite list_lookup_alter_eq. destruct (t !! j); simpl; [|done].
    by rewrite Hput.
  - by rewrite list_lookup_alter_ne.
Qed.

(** Reading back a row written through an in-range index list. *)
Lemma scatter_replicate_lookup {A B} (put : B -> A -> A)
    (ids : list nat) (x : B) (t : list A) (e : nat) :
  NoDup ids -> e ∈ ids ->
  scatter put ids (replicate (length ids) x) t !! e = put x <$> t !! e.
Proof.
  intros Hnd (k & Hk)%list_elem_of_lookup.
  apply (scatter_lookup_in put ids _ t k e x Hnd Hk).
  apply lookup_replicate_2. by eapply lookup_lt_Some.
Qed.

Lemma nonzero_in_range (mask : list bool) (n : nat) :
  length mask = n -> Forall (fun e => e < n)%nat (nonzero mask).
Proof.
  intros <-. apply Forall_forall. intros e He. by apply nonzero_lt.
Qed.

Lemma set_target_ids_spec d (e : nat) :
  e ∈ set_target_ids d <->
  exists p, progress_buf d !! e = Some p /\ (p `mod` 500 = 0)%Z.
Proof.
  unfold set_target_ids. rewrite elem_of_nonzero, list_lookup_fmap.
  destruct (progress_buf d !! e) as [p|]; simpl.
  - split.
    + intros [= Hp%bool_decide_eq_true]. eauto.
    + intros (p' & [= <-] & Hp). by rewrite bool_decide_eq_true_2.
  - split; [done | by intros (? & ? & _)].
Qed.

Lemma reset_env_ids_spec d (e : nat) :
  e ∈ reset_env_ids d <->
  exists r, reset_buf d !! e = Some r /\ r <> 0%Z.
Proof.
  unfold reset_env_ids. rewrite elem_of_nonzero, list_lookup_fmap.
  destruct (reset_buf d !! e) as [r|]; simpl.
  - split.
    + intros [= Hr%bool_decide_eq_true]. eauto.
    + intros (r' & [= <-] & Hr). by rewrite bool_decide_eq_true_2.
  - split; [done | by intros (? & ? & _)].
Qed.

Lemma set_target_ids_in_range n d :
  shaped n d -> Forall (fun e => e < n)%nat (set_target_ids d).
Proof.
  intros Hs. apply nonzero_in_range. rewrite length_fmap. apply Hs.
Qed.

Lemma reset_env_ids_in_range n d :
  shaped n d -> Forall (fun e => e < n)%nat (reset_env_ids d).
Proof.
  intros Hs. apply nonzero_in_range. rewrite length_fmap. apply Hs.
Qed.

(** The plate flag holds exactly when every environment of the reset
    set has progress 0. *)
Lemma reset_plates_at_spec n d :
  shaped n d ->
  reset_plates_at d = true <->
  forall e, e ∈ reset_env_ids d -> progress_buf d !! e = Some 0%Z.
Proof.
  intros Hs. unfold reset_plates_at.
  pose proof (reset_env_ids_in_range n d Hs) as Hin.
  rewrite <- (shaped_progress n d Hs) in Hin.
  rewrite <- Is_true_true, forallb_True, Forall_lookup. split.
  - intros Hall e (k & Hk)%list_elem_of_lookup.
    destruct (lookup_lt_is_Some_2 (progress_buf d) e) as [p Hp].
    { by eapply Forall_lookup in Hin. }
    specialize (Hall k p). rewrite (gather_lookup _ _ k e Hin Hk) in Hall.
    pose proof (Hall Hp) as Hz. apply bool_decide_unpack in Hz. by subst.
  - intros Hall k p Hp.
    destruct (lookup_lt_is_Some_2 (reset_env_ids d) k) as [e He].
    { rewrite <- (length_gather _ _ Hin). by eapply lookup_lt_Some. }
    rewrite (gather_lookup _ _ k e Hin He) in Hp.
    rewrite (Hall e) in Hp by (by eapply list_elem_of_lookup_2).
    simplify_eq. by apply bool_decide_pack.
Qed.

End MethodFacts.

(** ** [set_targets] *)

Section SetTargetsFacts.
Local Open Scope R_scope.
Context (n : nat) (ids : list nat) (d : Drone).
Hypothesis Hshape : shaped n d.
Hypothesis Hnodup : NoDup ids.
Hypothesis Hrange : Forall (fun e => e < n)%nat ids.

Lemma set_targets_indices :
  (set_targets ids d).2 = (fun e => all_actor_indices e 1) <$> ids.
Proof. reflexivity. Qed.

Lemma set_targets_shaped : shaped n (set_targets ids d).1.
Proof.
  destruct Hshape. constructor; simpl; rewrite ?length_scatter; done.
Qed.

Lemma set_targets_target_notin (e : nat) :
  e ∉ ids ->
  target_root_positions (set_targets ids d).1 !! e
    = target_root_positions d !! e.
Proof. intros He. simpl. by rewrite !scatter_lookup_notin. Qed.

Lemma set_targets_target_in (e : nat) :
  e ∈ ids ->
  target_root_positions (set_targets ids d).1 !! e
    = Some (mkVec3 (0 * 10 - 5) (0 * 10 - 5) (0 + 1)).
Proof.
  intros He. simpl. rewrite !scatter_replicate_lookup by done.
  destruct (lookup_lt_is_Some_2 (target_root_positions d) e) as [t ->]; [|done].
  rewrite (shaped_target n d Hshape).
  eapply Forall_forall in Hrange; [exact Hrange | done].
Qed.

Lemma set_targets_marker_notin (e : nat) :
  e ∉ ids ->
  marker_states (set_targets ids d).1 !! e = marker_states d !! e.
Proof. intros He. simpl. by rewrite !scatter_lookup_notin. Qed.

Lemma set_targets_marker_quat :
  rs_quat <$> marker_states (set_targets ids d).1 = rs_quat <$> marker_states d.
Proof. simpl. by rewrite !scatter_frame. Qed.

Lemma set_targets_marker_in (e : nat) :
  e ∈ ids ->
  marker_positions (set_targets ids d).1 !! e
    = Some (mkVec3 (0 * 10 - 5) (0 * 10 - 5) (0 + 1 + 0.0)).
Proof.
  intros He. pose proof (set_targets_target_in e He) as Ht.
  destruct (list_elem_of_lookup_1 _ _ He) as [k Hk].
  assert (e < n)%nat as Hlt by (eapply Forall_forall in Hrange; done).
  destruct (lookup_lt_is_Some_2 (marker_states d) e) as [m Hm].
  { by rewrite (shaped_marker n d Hshape). }
  revert Ht. unfold marker_positions. simpl.
  set (T := scatter put_z ids _ (scatter put_xy ids _ (target_root_positions d))).
  intros Ht.
  assert (length T = n) as HT.
  { unfold T. rewrite !length_scatter. apply Hshape. }
  set (M := scatter put_pos ids (gather ids T) (marker_states d)).
  assert (M !! e = Some (put_pos (mkVec3 (0 * 10 - 5) (0 * 10 - 5) (0 + 1)) m))
    as HM.
  { unfold M.
    rewrite (scatter_lookup_in _ _ _ _ k e
               (mkVec3 (0 * 10 - 5) (0 * 10 - 5) (0 + 1)) Hnodup Hk);
      [by rewrite Hm|].
    rewrite (gather_lookup ids T k e); [done| |done]. by rewrite HT. }
  rewrite list_lookup_fmap.
  rewrite (scatter_lookup_in _ _ _ _ k e
             (vz (mkVec3 (0 * 10 - 5) (0 * 10 - 5) (0 + 1)) + 0.0) Hnodup Hk).
  - by rewrite HM.
  - rewrite list_lookup_fmap, (gather_lookup ids _ k e); [| |done];
      unfold marker_positions; simpl; fold T; fold M.
    + by rewrite list_lookup_fmap, HM.
    + unfold M. by rewrite length_fmap, length_scatter, (shaped_marker n d Hshape).
Qed.

End SetTargetsFacts.

(** ** [reset_idx] *)

(** [t[ids, c] += noise]: the row of the [k]-th index gets the [k]-th
    noise entry added to column [c]. *)
Lemma scatter_add_noise (proj : Vec3 -> R) (put : R -> RootState -> RootState)
    (noise : nat -> R) (ids : list nat) (t : list RootState)
    (k e : nat) (s : RootState) :
  NoDup ids -> Forall (fun e => e < length t)%nat ids ->
  ids !! k = Some e -> t !! e = Some s ->
  scatter put ids
    (zip_with Rplus (proj <$> gather ids (rs_pos <$> t))
       (noise <$> seq 0 (length ids))) t !! e
  = Some (put (proj (rs_pos s) + noise k)%R s).
Proof.
  intros Hnd Hin Hk Hs.
  rewrite (scatter_lookup_in _ _ _ _ k e (proj (rs_pos s) + noise k)%R Hnd Hk).
  - by rewrite Hs.
  - apply lookup_zip_with_Some. exists (proj (rs_pos s)), (noise k).
    split; [done|]. split.
    + rewrite list_lookup_fmap, (gather_lookup ids _ k e); [| |done].
      * by rewrite list_lookup_fmap, Hs.
      * by rewrite length_fmap.
    + rewrite list_lookup_fmap, lookup_seq_lt; [done|]. by eapply lookup_lt_Some.
Qed.

Section ResetIdxFacts.
Local Open Scope R_scope.
Context (n : nat) (ids : list nat) (plates : bool) (rnd : Draws) (d : Drone).
Hypothesis Hshape : shaped n d.
Hypothesis Hnodup : NoDup ids.
Hypothesis Hrange : Forall (fun e => e < n)%nat ids.

Lemma reset_idx_indices :
  (reset_idx ids plates rnd d).2
    = unique ((fun e => all_actor_indices e 0) <$> ids).
Proof. reflexivity. Qed.

Lemma reset_idx_gym :
  gym (reset_idx ids plates rnd d).1
    = gym d ++ [set_actor_root_state_tensor_indexed
                  ((fun e => all_actor_indices e 0) <$> ids)
                  (length ((fun e => all_actor_indices e 0) <$> ids))].
Proof. by destruct plates. Qed.

Lemma reset_idx_target :
  target_root_positions (reset_idx ids plates rnd d).1 = target_root_positions d.
Proof. by destruct plates. Qed.

Lemma reset_idx_thrusts : thrusts (reset_idx ids plates rnd d).1 = thrusts d.
Proof. by destruct plates. Qed.

Lemma reset_idx_forces : forces (reset_idx ids plates rnd d).1 = forces d.
Proof. by destruct plates. Qed.

Lemma reset_idx_marker :
  marker_states (reset_idx ids plates rnd d).1
    = if plates
      then scatter put_cols_3_7 ids (plate_quat rnd <$> seq 0 (length ids))
             (marker_states d)
      else marker_states d.
Proof. by destruct plates. Qed.

Lemma reset_idx_marker_pos :
  marker_positions (reset_idx ids plates rnd d).1 = marker_positions d.
Proof.
  unfold marker_positions. rewrite reset_idx_marker.
  destruct plates; [|done]. by apply scatter_frame.
Qed.

Lemma reset_idx_shaped : shaped n (reset_idx ids plates rnd d).1.
Proof.
  destruct Hshape.
  destruct plates; constructor; simpl; rewrite ?length_scatter; done.
Qed.

Lemma reset_idx_flags (e : nat) :
  e ∈ ids ->
  reset_buf (reset_idx ids plates rnd d).1 !! e = Some 0%Z /\
  progress_buf (reset_idx ids plates rnd d).1 !! e = Some 0%Z.
Proof.
  intros He.
  assert (e < n)%nat as Hlt by (eapply Forall_forall in Hrange; done).
  destruct (lookup_lt_is_Some_2 (reset_buf d) e) as [r Hr].
  { by rewrite (shaped_reset n d Hshape). }
  destruct (lookup_lt_is_Some_2 (progress_buf d) e) as [p Hp].
  { by rewrite (shaped_progress n d Hshape). }
  destruct plates; simpl; rewrite !scatter_replicate_lookup by done;
    by rewrite Hr, Hp.
Qed.

Lemma reset_idx_flags_notin (e : nat) :
  e ∉ ids ->
  reset_buf (reset_idx ids plates rnd d).1 !! e = reset_buf d !! e /\
  progress_buf (reset_idx ids plates rnd d).1 !! e = progress_buf d !! e.
Proof.
  intros He. destruct plates; simpl; by rewrite !scatter_lookup_notin.
Qed.

Lemma reset_idx_root_notin (e : nat) :
  e ∉ ids ->
  root_states (reset_idx ids plates rnd d).1 !! e = root_states d !! e.
Proof.
  intros He. destruct plates; simpl; by rewrite !scatter_lookup_notin.
Qed.

Lemma reset_idx_root_in (k e : nat) (s0 : RootState) :
  ids !! k = Some e -> initial_root_states d !! e = Some s0 ->
  root_states (reset_idx ids plates rnd d).1 !! e
    = Some (mkRootState
              (mkVec3
                 (vx (rs_pos s0) + torch_rand_float (-1.5) 1.5 (rand_x rnd k))
                 (vy (rs_pos s0) + torch_rand_float (-1.5) 1.5 (rand_y rnd k))
                 (vz (rs_pos s0) + torch_rand_float (-0.2) 1.5 (rand_z rnd k)))
              (rs_quat s0) (rs_linvel s0) (rs_angvel s0)).
Proof.
  intros Hk Hs0.
  assert (e < n)%nat as Hlt.
  { eapply Forall_forall in Hrange; [done|]. by eapply list_elem_of_lookup_2. }
  destruct (lookup_lt_is_Some_2 (root_states d) e) as [s Hs].
  { by rewrite (shaped_root n d Hshape). }
  assert (root_states (reset_idx ids plates rnd d).1
          = root_states (reset_idx ids false rnd d).1) as -> by (by destruct plates).
  simpl. unfold root_positions. simpl.
  set (R1 := scatter put_row ids (gather ids (initial_root_states d)) (root_states d)).
  assert (length R1 = n) as HR1.
  { unfold R1. rewrite length_scatter. apply Hshape. }
  assert (R1 !! e = Some s0) as H1.
  { unfold R1. rewrite (scatter_lookup_in _ _ _ _ k e s0 Hnodup Hk); [by rewrite Hs|].
    rewrite (gather_lookup _ _ k e); [done| |done].
    by rewrite (shaped_initial_root n d Hshape). }
  set (R2 := scatter put_pos_x ids _ R1).
  assert (length R2 = n) as HR2 by (unfold R2; by rewrite length_scatter).
  assert (R2 !! e = Some (put_pos_x
            (vx (rs_pos s0) + torch_rand_float (-1.5) 1.5 (rand_x rnd k)) s0)) as H2.
  { unfold R2.
    apply (scatter_add_noise vx put_pos_x
             (fun k => torch_rand_float (-1.5) 1.5 (rand_x rnd k))); try done.
    by rewrite HR1. }
  set (R3 := scatter put_pos_y ids _ R2).
  assert (length R3 = n) as HR3 by (unfold R3; by rewrite length_scatter).
  assert (R3 !! e = Some (put_pos_y
            (vy (rs_pos s0) + torch_rand_float (-1.5) 1.5 (rand_y rnd k))
            (put_pos_x
               (vx (rs_pos s0) + torch_rand_float (-1.5) 1.5 (rand_x rnd k)) s0)))
    as H3.
  { unfold R3.
    apply (scatter_add_noise vy put_pos_y
             (fun k => torch_rand_float (-1.5) 1.5 (rand_y rnd k))
             ids R2 k e
             (put_pos_x
                (vx (rs_pos s0) + torch_rand_float (-1.5) 1.5 (rand_x rnd k)) s0)
             Hnodup); try done.
    by rewrite HR2. }
  assert (Forall (fun e => e < length R3)%nat ids) as Hin3 by (by rewrite HR3).
  exact (scatter_add_noise vz put_pos_z
           (fun k => torch_rand_float (-0.2) 1.5 (rand_z rnd k))
           ids R3 k e _ Hnodup Hin3 Hk H3).
Qed.

End ResetIdxFacts.

Lemma torch_rand_float_range (lower upper u : R) :
  (lower <= upper)%R -> (0 <= u < 1)%R ->
  (lower <= torch_rand_float lower upper u <= upper)%R.
Proof. unfold torch_rand_float. intros Hlu Hu. nra. Qed.

(** ** Frames of the stages *)

Section StageFacts.
Local Open Scope R_scope.

Lemma target_stage_indices d :
  (target_stage d).2 = (fun e => all_actor_indices e 1) <$> set_target_ids d.
Proof.
  unfold target_stage. case_bool_decide as Hlen; [done|]. simpl.
  destruct (set_target_ids d); [done | simpl in Hlen; lia].
Qed.

Lemma target_stage_flags d :
  reset_buf (target_stage d).1 = reset_buf d /\
  progress_buf (target_stage d).1 = progress_buf d.
Proof. unfold target_stage. by case_bool_decide. Qed.

Lemma target_stage_controls d :
  thrusts (target_stage d).1 = thrusts d /\
  forces (target_stage d).1 = forces d /\
  gym (target_stage d).1 = gym d.
Proof. unfold target_stage. by case_bool_decide. Qed.

Lemma target_stage_reset_env_ids d :
  reset_env_ids (target_stage d).1 = reset_env_ids d.
Proof. unfold reset_env_ids. by rewrite (proj1 (target_stage_flags d)). Qed.

Lemma target_stage_reset_plates d :
  reset_plates_at (target_stage d).1 = reset_plates_at d.
Proof.
  unfold reset_plates_at.
  by rewrite target_stage_reset_env_ids, (proj2 (target_stage_flags d)).
Qed.

Lemma target_stage_shaped n d : shaped n d -> shaped n (target_stage d).1.
Proof.
  intros Hs. unfold target_stage. case_bool_decide; [|done].
  by apply set_targets_shaped.
Qed.

Lemma target_stage_marker_quat d :
  rs_quat <$> marker_states (target_stage d).1 = rs_quat <$> marker_states d.
Proof.
  unfold target_stage. case_bool_decide; [|done]. apply set_targets_marker_quat.
Qed.

Lemma target_stage_notin d (e : nat) :
  e ∉ set_target_ids d ->
  target_root_positions (target_stage d).1 !! e = target_root_positions d !! e /\
  marker_states (target_stage d).1 !! e = marker_states d !! e.
Proof.
  intros He. unfold target_stage. case_bool_decide; [|done]. split.
  - by apply set_targets_target_notin.
  - by apply set_targets_marker_notin.
Qed.

Lemma target_stage_in n d (e : nat) :
  shaped n d -> e ∈ set_target_ids d ->
  target_root_positions (target_stage d).1 !! e
    = Some (mkVec3 (0 * 10 - 5) (0 * 10 - 5) (0 + 1)) /\
  marker_positions (target_stage d).1 !! e
    = Some (mkVec3 (0 * 10 - 5) (0 * 10 - 5) (0 + 1 + 0.0)).
Proof.
  intros Hs He. unfold target_stage. case_bool_decide as Hlen.
  - split.
    + eapply set_targets_target_in;
        eauto using NoDup_nonzero, set_target_ids_in_range.
    + eapply set_targets_marker_in;
        eauto using NoDup_nonzero, set_target_ids_in_range.
  - destruct (set_target_ids d); [by apply elem_of_nil in He | simpl in Hlen; lia].
Qed.

Lemma reset_stage_target rnd d :
  target_root_positions (reset_stage rnd d).1 = target_root_positions d.
Proof. unfold reset_stage. case_bool_decide; [|done]. apply reset_idx_target. Qed.

Lemma reset_stage_controls rnd d :
  thrusts (reset_stage rnd d).1 = thrusts d /\
  forces (reset_stage rnd d).1 = forces d.
Proof.
  unfold reset_stage. case_bool_decide; [|done].
  split; [apply reset_idx_thrusts | apply reset_idx_forces].
Qed.

Lemma reset_stage_marker_pos rnd d :
  marker_positions (reset_stage rnd d).1 = marker_positions d.
Proof.
  unfold reset_stage. case_bool_decide; [|done]. apply reset_idx_marker_pos.
Qed.

Lemma reset_stage_marker rnd d :
  marker_states (reset_stage rnd d).1
    = if reset_plates_at d
      then scatter put_cols_3_7 (reset_env_ids d)
             (plate_quat rnd <$> seq 0 (length (reset_env_ids d)))
             (marker_states d)
      else marker_states d.
Proof.
  unfold reset_stage. case_bool_decide as Hlen; [apply reset_idx_marker|].
  simpl. destruct (reset_env_ids d); [|simpl in Hlen; lia].
  by destruct (reset_plates_at d).
Qed.

Lemma reset_stage_indices rnd d :
  (reset_stage rnd d).2
    = unique ((fun e => all_actor_indices e 0) <$> reset_env_ids d).
Proof.
  unfold reset_stage. case_bool_decide as Hlen; [done|].
  simpl. destruct (reset_env_ids d); [done | simpl in Hlen; lia].
Qed.

Lemma reset_stage_gym rnd d :
  gym (reset_stage rnd d).1
    = gym d ++
      if bool_decide (0 < length (reset_env_ids d))%nat
      then [set_actor_root_state_tensor_indexed
              ((fun e => all_actor_indices e 0) <$> reset_env_ids d)
              (length ((fun e => all_actor_indices e 0) <$> reset_env_ids d))]
      else [].
Proof.
  unfold reset_stage. case_bool_decide; [apply reset_idx_gym|].
  simpl. by rewrite app_nil_r.
Qed.

Lemma reset_stage_shaped n rnd d : shaped n d -> shaped n (reset_stage rnd d).1.
Proof.
  intros Hs. unfold reset_stage. case_bool_decide; [|done].
  by apply reset_idx_shaped.
Qed.

Lemma push_stage_frame ta ra d :
  marker_states (push_stage ta ra d) = marker_states d /\
  target_root_positions (push_stage ta ra d) = target_root_positions d /\
  thrusts (push_stage ta ra d) = thrusts d /\
  forces (push_stage ta ra d) = forces d.
Proof. unfold push_stage. by case_bool_decide. Qed.

Lemma push_stage_gym ta ra d :
  gym (push_stage ta ra d)
    = gym d ++
      if bool_decide (0 < length (unique (ta ++ ra)))%nat
      then [set_actor_root_state_tensor_indexed
              (unique (ta ++ ra)) (length (unique (ta ++ ra)))]
      else [].
Proof. unfold push_stage. case_bool_decide; [done|]. by rewrite app_nil_r. Qed.

Lemma pre_physics_step_marker actions rnd d :
  marker_states (pre_physics_step actions rnd d)
    = marker_states (reset_stage rnd (target_stage d).1).1.
Proof.
  rewrite pre_physics_step_stages. simpl.
  apply (push_stage_frame _ _ _).
Qed.

Lemma pre_physics_step_target actions rnd d :
  target_root_positions (pre_physics_step actions rnd d)
    = target_root_positions (target_stage d).1.
Proof.
  rewrite pre_physics_step_stages. simpl.
  rewrite (proj1 (proj2 (push_stage_frame _ _ _))). apply reset_stage_target.
Qed.

End StageFacts.

(** ** Episode resetter *)

Section ResetClaims.
Local Open Scope R_scope.
Import Samples.

Lemma one_env_shaped reset progress : shaped 1 (one_env reset progress).
Proof. by constructor. Qed.

Lemma mid_draws_unit : unit_draws mid_draws.
Proof. intros k. simpl. lra. Qed.

(** C6: for the [k]-th flagged environment [e], [reset_idx] leaves its
    root state at the Initial State Snapshot [s0] with the position
    moved by offsets drawn for that environment alone, within
    [-1.5, 1.5] in x and y and [-0.2, 1.5] in z; orientation, linear and
    angular velocity are the snapshot's; reset flag and progress counter
    are 0. *)
Theorem reset_idx_restores_snapshot
    n env_ids reset_plates rnd d (k e : nat) (s0 : RootState) :
  shaped n d -> NoDup env_ids -> Forall (fun e => e < n)%nat env_ids ->
  unit_draws rnd ->
  env_ids !! k = Some e -> initial_root_states d !! e = Some s0 ->
  let d' := (reset_idx env_ids reset_plates rnd d).1 in
  let ox := torch_rand_float (-1.5) 1.5 (rand_x rnd k) in
  let oy := torch_rand_float (-1.5) 1.5 (rand_y rnd k) in
  let oz := torch_rand_float (-0.2) 1.5 (rand_z rnd k) in
  exists s',
    root_states d' !! e = Some s' /\
    rs_pos s' = vadd (rs_pos s0) (mkVec3 ox oy oz) /\
    -1.5 <= ox <= 1.5 /\ -1.5 <= oy <= 1.5 /\ -0.2 <= oz <= 1.5 /\
    rs_quat s' = rs_quat s0 /\
    rs_linvel s' = rs_linvel s0 /\
    rs_angvel s' = rs_angvel s0 /\
    reset_buf d' !! e = Some 0%Z /\
    progress_buf d' !! e = Some 0%Z.
Proof.
  intros Hs Hnd Hin Hu Hk Hs0 d' ox oy oz.
  destruct (Hu k) as (Hx & Hy & Hz).
  eexists. split.
  { apply (reset_idx_root_in n env_ids reset_plates rnd d Hs Hnd Hin k e s0 Hk Hs0). }
  simpl. split; [reflexivity|].
  repeat split; try (apply torch_rand_float_range; [lra | done]);
    apply (reset_idx_flags n env_ids reset_plates rnd d Hs Hnd Hin e);
    by eapply list_elem_of_lookup_2.
Qed.

Lemma reset_idx_restores_snapshot_witness :
  exists s',
    root_states (reset_idx [0%nat] false mid_draws (one_env 1 3)).1 !! 0%nat
      = Some s' /\
    rs_pos s' = vadd (rs_pos rest)
                  (mkVec3 (torch_rand_float (-1.5) 1.5 0.5)
                          (torch_rand_float (-1.5) 1.5 0.5)
                          (torch_rand_float (-0.2) 1.5 0.5)) /\
    -1.5 <= torch_rand_float (-1.5) 1.5 0.5 <= 1.5 /\
    -1.5 <= torch_rand_float (-1.5) 1.5 0.5 <= 1.5 /\
    -0.2 <= torch_rand_float (-0.2) 1.5 0.5 <= 1.5 /\
    rs_quat s' = rs_quat rest /\
    rs_linvel s' = rs_linvel rest /\
    rs_angvel s' = rs_angvel rest /\
    reset_buf (reset_idx [0%nat] false mid_draws (one_env 1 3)).1 !! 0%nat
      = Some 0%Z /\
    progress_buf (reset_idx [0%nat] false mid_draws (one_env 1 3)).1 !! 0%nat
      = Some 0%Z.
Proof.
  apply (reset_idx_restores_snapshot 1 [0%nat] false mid_draws (one_env 1 3)
           0 0 rest).
  - apply one_env_shaped.
  - apply NoDup_singleton.
  - repeat constructor.
  - apply mid_draws_unit.
  - reflexivity.
  - reflexivity.
Defined.

(** What [pre_physics_step] does to the plates is decided by the
    progress counters of the reset set alone: the plate orientation of
    the [k]-th environment of the reset set is overwritten by the
    [k]-th freshly drawn tilt when every environment of the reset set
    entered the call with progress 0; when some environment of the reset
    set has another progress, no plate orientation changes at all; and
    an environment outside the reset set keeps its plate orientation in
    either case. *)
Lemma plate_branch_follows_progress n actions rnd d :
  shaped n d ->
  let d' := pre_physics_step actions rnd d in
  let all_zero :=
    forall e, e ∈ reset_env_ids d -> progress_buf d !! e = Some 0%Z in
  (all_zero ->
   forall k e, reset_env_ids d !! k = Some e ->
     plate_orientations d' !! e
       = Some (cols_3_7 (plate_quat rnd k))) /\
  (~ all_zero -> plate_orientations d' = plate_orientations d) /\
  (forall e, e ∉ reset_env_ids d ->
     plate_orientations d' !! e = plate_orientations d !! e).
Proof.
  intros Hs d' all_zero.
  pose proof (target_stage_shaped n d Hs) as Hs1.
  pose proof (reset_plates_at_spec n d Hs) as Hflag.
  unfold plate_orientations, d'.
  rewrite pre_physics_step_marker, reset_stage_marker,
    target_stage_reset_plates, target_stage_reset_env_ids.
  split; [|split].
  - intros Hall k e Hk. rewrite (proj2 Hflag Hall).
    assert (e < n)%nat as Hlt.
    { pose proof (reset_env_ids_in_range n d Hs) as Hin.
      eapply Forall_forall in Hin; [done|]. by eapply list_elem_of_lookup_2. }
    destruct (lookup_lt_is_Some_2 (marker_states (target_stage d).1) e) as [m Hm].
    { by rewrite (shaped_marker n _ Hs1). }
    rewrite list_lookup_fmap.
    rewrite (scatter_lookup_in _ _ _ _ k e (plate_quat rnd k)
               (NoDup_nonzero _) Hk).
    + by rewrite Hm.
    + rewrite list_lookup_fmap, lookup_seq_lt; [done|]. by eapply lookup_lt_Some.
  - intros Hnot. destruct (reset_plates_at d) eqn:Hf.
    + exfalso. apply Hnot. unfold all_zero. by apply (proj1 Hflag).
    + apply target_stage_marker_quat.
  - intros e He. rewrite <- (target_stage_marker_quat d).
    destruct (reset_plates_at d); [|done].
    rewrite !list_lookup_fmap. by rewrite scatter_lookup_notin.
Qed.

(** The orientation columns written for the [k]-th plate, in terms of
    the two draws: [quat.w, quat.x, quat.y, quat.z] of the axis-angle
    quaternion land in columns 3, 4, 5 and 6. *)
Lemma plate_quat_of_draws rnd (k : nat) :
  cols_3_7 (plate_quat rnd k)
  = mkQuat (cos (tilt_angle rnd k / 2))
           (cos (tilt_direction rnd k) * sin (tilt_angle rnd k / 2))
           (sin (tilt_direction rnd k) * sin (tilt_angle rnd k / 2))
           (0 * sin (tilt_angle rnd k / 2)).
Proof. reflexivity. Qed.

(** C4 fails on the code, against the comments of [reset_idx] (plates
    are reset at the beginning of an epoch) and of [post_physics_step]
    (all environments have completed an episode to reset plates).
    - Both environments of a batch of two are flagged at the time limit,
      which is how the evaluator flags them at progress
      [max_episode_length - 1]: [pre_physics_step] resets both drones
      and leaves both plates as they were.
    - One environment of two is flagged with progress 0:
      [pre_physics_step] tilts its plate by the draws, although the
      other environment is not reset.
    - [post_physics_step] counts the epoch when every counter has
      reached [max_episode_length], and leaves the plates as the
      simulator reports them; the call of [pre_physics_step] that
      follows resets both flagged drones and tilts nothing either. *)
Theorem plate_tilt_misses_full_batch_reset :
  (let d := two_envs 1 1 999 999 in
   let d' := pre_physics_step [idle; idle] tilted_draws d in
   (compute_drone_reward (root_positions d) (target_root_positions d)
      (root_quats d) (root_linvels d) (root_angvels d)
      [0%Z; 0%Z] (progress_buf d) (max_episode_length d)).2 = reset_buf d /\
   reset_env_ids d = [0%nat; 1%nat] /\
   progress_buf d' = [0%Z; 0%Z] /\
   plate_orientations d' = plate_orientations d) /\
  (let d := two_envs 1 0 0 5 in
   let d' := pre_physics_step [idle; idle] tilted_draws d in
   reset_env_ids d = [0%nat] /\
   plate_orientations d'
     = [mkQuat (cos (0.1 / 2)) (cos 0 * sin (0.1 / 2))
               (sin 0 * sin (0.1 / 2)) (0 * sin (0.1 / 2));
        upright] /\
   plate_orientations d' <> plate_orientations d) /\
  (let t := mkTask (two_envs 1 1 999 999) [blank; blank] 0 in
   let t' := outcome_state (post_physics_step [rest; rest_aside] [rest; rest] t) in
   let d' := pre_physics_step [idle; idle] tilted_draws (drone t') in
   progress_buf (drone t') = [1000%Z; 1000%Z] /\
   epoch_count t' = (epoch_count t + 1)%Z /\
   plate_orientations (drone t') = [upright; upright] /\
   progress_buf d' = [0%Z; 0%Z] /\
   plate_orientations d' = [upright; upright]).
Proof.
  split; [|split].
  - cbv zeta. split; [|split; [|split]].
    + apply list_eq. intros [|[|i]]; [| |reflexivity].
      * etransitivity; [eapply compute_drone_reward_at; reflexivity|].
        reflexivity.
      * etransitivity; [eapply compute_drone_reward_at; reflexivity|].
        reflexivity.
    + reflexivity.
    + reflexivity.
    + reflexivity.
  - cbv zeta.
    assert (plate_orientations
              (pre_physics_step [idle; idle] tilted_draws (two_envs 1 0 0 5))
            = [mkQuat (cos (0.1 / 2)) (cos 0 * sin (0.1 / 2))
                      (sin 0 * sin (0.1 / 2)) (0 * sin (0.1 / 2));
               upright]) as Htilt by reflexivity.
    split; [reflexivity|]. split; [exact Htilt|].
    rewrite Htilt. intros [= _ _ _ Hw]. lra.
  - cbv zeta. repeat split.
Qed.

End ResetClaims.

(** ** Target scheduler *)

Section TargetClaims.
Local Open Scope R_scope.
Import Samples.

(** The region the disabled sampling collapses to:
    [zeros * 10 - 5] in x and y, [zeros + 1] in z. *)
Lemma fixed_target_value :
  mkVec3 (0 * 10 - 5) (0 * 10 - 5) (0 + 1) = mkVec3 (-5) (-5) 1.
Proof. f_equal; lra. Qed.

Lemma fixed_marker_value :
  mkVec3 (0 * 10 - 5) (0 * 10 - 5) (0 + 1 + 0.0) = mkVec3 (-5) (-5) 1.
Proof. f_equal; lra. Qed.

(** C9: in one call of [pre_physics_step], an environment whose
    progress counter is a multiple of 500 gets its target written anew
    and its marker moved onto it; an environment whose progress counter
    is not a multiple of 500 keeps its target and its whole marker
    row. *)
Theorem targets_resampled_exactly_on_period
    n actions rnd d (e : nat) (p : Z) :
  shaped n d -> progress_buf d !! e = Some p ->
  let d' := pre_physics_step actions rnd d in
  ((p `mod` 500 = 0)%Z ->
     e ∈ set_target_ids d /\
     target_root_positions d' !! e = Some (mkVec3 (-5) (-5) 1) /\
     marker_positions d' !! e = Some (mkVec3 (-5) (-5) 1)) /\
  ((p `mod` 500)%Z <> 0%Z ->
     (e ∉ set_target_ids d) /\
     target_root_positions d' !! e = target_root_positions d !! e /\
     marker_states d' !! e = marker_states d !! e).
Proof.
  intros Hs Hp d'. unfold d', marker_positions.
  rewrite pre_physics_step_target, pre_physics_step_marker.
  pose proof (target_stage_shaped n d Hs) as Hs1.
  split.
  - intros Hmod.
    assert (e ∈ set_target_ids d) as He by (apply set_target_ids_spec; eauto).
    destruct (target_stage_in n d e Hs He) as [Ht Hm].
    split; [done|]. split.
    + by rewrite Ht, fixed_target_value.
    + fold (marker_positions (reset_stage rnd (target_stage d).1).1).
      by rewrite reset_stage_marker_pos, Hm, fixed_marker_value.
  - intros Hmod.
    assert (e ∉ set_target_ids d) as He.
    { intros (p' & Hp' & Hz)%set_target_ids_spec. congruence. }
    destruct (target_stage_notin d e He) as [Ht Hm].
    split; [done|]. split; [done|].
    rewrite reset_stage_marker, <- Hm.
    destruct (reset_plates_at (target_stage d).1) eqn:Hflag; [|done].
    apply scatter_lookup_notin.
    rewrite target_stage_reset_env_ids. intros Hin.
    rewrite target_stage_reset_plates in Hflag.
    pose proof (proj1 (reset_plates_at_spec n d Hs) Hflag e Hin) as Hzero.
    rewrite Hzero in Hp. by simplify_eq.
Qed.

Lemma targets_resampled_exactly_on_period_witness :
  let d := one_env 0 500 in
  let d' := pre_physics_step [idle] mid_draws d in
  ((500 `mod` 500 = 0)%Z ->
     0%nat ∈ set_target_ids d /\
     target_root_positions d' !! 0%nat = Some (mkVec3 (-5) (-5) 1) /\
     marker_positions d' !! 0%nat = Some (mkVec3 (-5) (-5) 1)) /\
  ((500 `mod` 500)%Z <> 0%Z ->
     (0%nat ∉ set_target_ids d) /\
     target_root_positions d' !! 0%nat = target_root_positions d !! 0%nat /\
     marker_states d' !! 0%nat = marker_states d !! 0%nat).
Proof.
  apply (targets_resampled_exactly_on_period 1 [idle] mid_draws (one_env 0 500)
           0 500).
  - apply one_env_shaped.
  - reflexivity.
Defined.

End TargetClaims.

(** ** Action-to-force mapper *)

Section ForceClaims.
Local Open Scope R_scope.
Import Samples.

Lemma force_stage_gym actions ids d :
  gym (force_stage actions ids d)
    = gym d ++ [apply_rigid_body_force_tensors (forces (force_stage actions ids d))].
Proof. reflexivity. Qed.

Lemma force_stage_zeroes actions ids d (n e : nat) :
  length (thrusts d) = n -> length (forces d) = n ->
  NoDup ids -> e ∈ ids -> (e < n)%nat ->
  thrusts (force_stage actions ids d) !! e = Some (mkVec4 0.0 0.0 0.0 0.0) /\
  exists row,
    forces (force_stage actions ids d) !! e = Some (fill_bodies 0.0 row).
Proof.
  intros Ht Hf Hnd He Hlt. simpl. rewrite !scatter_replicate_lookup by done.
  split.
  - destruct (lookup_lt_is_Some_2 (thrusts d) e) as [th ->]; [lia | done].
  - match goal with |- context [fill_bodies 0.0 <$> ?F !! e] =>
      destruct (lookup_lt_is_Some_2 F e) as [row ->]
    end.
    + rewrite !length_scatter. lia.
    + by exists row.
Qed.

Lemma scatter_all_rows_lookup {A B} (put : B -> A -> A)
    (vals : list B) (t : list A) (e : nat) (v : B) :
  vals !! e = Some v ->
  scatter put (all_rows t) vals t !! e = put v <$> t !! e.
Proof.
  intros Hv. destruct (decide (e < length t)%nat) as [Hlt|Hge].
  - apply (scatter_lookup_in put (all_rows t) vals t e e v); [|by apply lookup_seq_lt|done].
    apply NoDup_seq.
  - rewrite (lookup_ge_None_2 t e) by lia.
    apply lookup_ge_None_2. rewrite length_scatter. lia.
Qed.

(** Outside the reset set, the force rows of an environment carry
    [dt] times its four clamped thrusts in the z entries of bodies 1
    to 4. *)
Lemma broadcast_rows_fmap {A B} (f : A -> B) (n : nat) (l : list A) :
  broadcast_rows n (f <$> l) = f <$> broadcast_rows n l.
Proof.
  destruct l as [|x [|y l]]; simpl; try done. by rewrite fmap_replicate.
Qed.

Lemma broadcast_rows_fits {A} (n : nat) (l : list A) :
  length l = n \/ length l = 1%nat -> length (broadcast_rows n l) = n.
Proof.
  intros [H|H].
  - destruct l as [|x [|y l]]; simpl in *; try done.
    by rewrite length_replicate.
  - destruct l as [|x [|y l]]; simpl in *; try done.
    by rewrite length_replicate.
Qed.

Lemma force_stage_rotor_forces actions ids d (e : nat) (a : Vec4) :
  e ∉ ids -> action_of (length (forces d)) actions e = Some a ->
  let thrust col :=
    clamp (col a * thrust_velocity_scale) thrust_lower_limit thrust_upper_limit in
  forces (force_stage actions ids d) !! e
    = (fun row =>
         put_body_z 4 (dt d * thrust c3)
           (put_body_z 3 (dt d * thrust c2)
              (put_body_z 2 (dt d * thrust c1)
                 (put_body_z 1 (dt d * thrust c0) row)))) <$> forces d !! e.
Proof.
  intros He Ha thrust. simpl. rewrite scatter_lookup_notin by done.
  rewrite !length_scatter.
  assert (forall col,
            broadcast_rows (length (forces d))
              (Rmult (dt d) <$> thrust_prop col actions) !! e
            = Some (dt d * thrust col)) as Hcol.
  { intros col. unfold thrust_prop, action_of in *.
    by rewrite !broadcast_rows_fmap, !list_lookup_fmap, Ha. }
  rewrite (scatter_all_rows_lookup _ _ _ e _ (Hcol c3)).
  rewrite (scatter_all_rows_lookup _ _ _ e _ (Hcol c2)).
  rewrite (scatter_all_rows_lookup _ _ _ e _ (Hcol c1)).
  rewrite (scatter_all_rows_lookup _ _ _ e _ (Hcol c0)).
  by destruct (forces d !! e).
Qed.

Lemma Forall_scatter_keeps {A B} (P : A -> Prop) (put : B -> A -> A)
    (ids : list nat) (vals : list B) (t : list A) :
  (forall v a, P a -> P (put v a)) ->
  Forall P t -> Forall P (scatter put ids vals t).
Proof.
  intros Hput. revert vals t.
  induction ids as [|i ids IH]; intros [|v vals] t Ht; try done.
  rewrite scatter_cons. apply IH. apply Forall_lookup. intros j a Ha.
  destruct (decide (i = j)) as [->|Hne].
  - rewrite list_lookup_alter_eq in Ha.
    destruct (t !! j) as [a0|] eqn:E; simplify_eq/=.
    apply Hput. by eapply Forall_lookup_1 in Ht.
  - rewrite list_lookup_alter_ne in Ha by done.
    by eapply Forall_lookup_1 in Ht.
Qed.

Lemma force_stage_force_rows actions ids d :
  force_rows_shaped d -> force_rows_shaped (force_stage actions ids d).
Proof.
  unfold force_rows_shaped. intros H. simpl.
  apply Forall_scatter_keeps;
    [intros v a Ha; unfold fill_bodies; by rewrite length_fmap|].
  do 4 (apply Forall_scatter_keeps;
          [intros v a Ha; unfold put_body_z; by rewrite length_alter|]).
  done.
Qed.

Lemma pre_physics_step_force_rows actions rnd d :
  force_rows_shaped d -> force_rows_shaped (pre_physics_step actions rnd d).
Proof.
  intros H. rewrite pre_physics_step_stages.
  apply force_stage_force_rows. unfold force_rows_shaped.
  rewrite (proj2 (proj2 (proj2 (push_stage_frame _ _ _)))).
  rewrite (proj2 (reset_stage_controls _ _)).
  by rewrite (proj1 (proj2 (target_stage_controls d))).
Qed.

(** C7: at the end of [pre_physics_step], called with an action batch
    of [num_envs] rows or of one row, an environment that entered the
    call with a non-zero reset flag has a zero thrust row and a force
    row of [bodies_per_env] bodies whose entries are all zero, and the
    force buffer that holds this row is the one handed to the simulator
    by the last call of the method. *)
Theorem reset_envs_get_zero_thrust_and_force
    n actions rnd d (e : nat) (r : Z) :
  shaped n d -> force_rows_shaped d -> batch_fits n actions ->
  reset_buf d !! e = Some r -> r <> 0%Z ->
  let d' := pre_physics_step actions rnd d in
  (exists th, thrusts d' !! e = Some th /\
     c0 th = 0 /\ c1 th = 0 /\ c2 th = 0 /\ c3 th = 0) /\
  (exists row, forces d' !! e = Some row /\
     length row = bodies_per_env /\
     Forall (fun v => vx v = 0 /\ vy v = 0 /\ vz v = 0) row) /\
  last (gym d') = Some (apply_rigid_body_force_tensors (forces d')).
Proof.
  intros Hs Hrows _ Hr Hnz d'. unfold d'.
  pose proof (pre_physics_step_force_rows actions rnd d Hrows) as Hrows'.
  unfold force_rows_shaped in Hrows'.
  rewrite pre_physics_step_stages in Hrows' |- *.
  set (d1 := (target_stage d).1) in *.
  set (dx := push_stage _ _ _) in *.
  assert (e ∈ reset_env_ids d1) as He.
  { unfold d1. rewrite target_stage_reset_env_ids.
    apply reset_env_ids_spec. eauto. }
  assert (e < n)%nat as Hlt.
  { rewrite <- (shaped_reset n d Hs). by eapply lookup_lt_Some. }
  assert (shaped n d1) as Hs1 by (by apply target_stage_shaped).
  assert (length (thrusts dx) = n /\ length (forces dx) = n) as [Hth Hfo].
  { unfold dx.
    rewrite (proj1 (proj2 (proj2 (push_stage_frame _ _ _)))).
    rewrite (proj2 (proj2 (proj2 (push_stage_frame _ _ _)))).
    rewrite (proj1 (reset_stage_controls _ _)), (proj2 (reset_stage_controls _ _)).
    split; apply Hs1. }
  destruct (force_stage_zeroes actions (reset_env_ids d1) dx n e
              Hth Hfo (NoDup_nonzero _) He Hlt) as [Hthr [row Hrow]].
  split; [|split].
  - eexists. split; [exact Hthr|]. simpl. lra.
  - eexists. split; [exact Hrow|]. split.
    + by eapply Forall_lookup_1 in Hrows'.
    + unfold fill_bodies.
      apply Forall_fmap, Forall_forall. intros v _. simpl. lra.
  - rewrite force_stage_gym. apply last_snoc.
Qed.

Lemma reset_envs_get_zero_thrust_and_force_witness :
  let d' := pre_physics_step [mkVec4 1 1 1 1] mid_draws (one_env 1 3) in
  (exists th, thrusts d' !! 0%nat = Some th /\
     c0 th = 0 /\ c1 th = 0 /\ c2 th = 0 /\ c3 th = 0) /\
  (exists row, forces d' !! 0%nat = Some row /\
     length row = bodies_per_env /\
     Forall (fun v => vx v = 0 /\ vy v = 0 /\ vz v = 0) row) /\
  last (gym d') = Some (apply_rigid_body_force_tensors (forces d')).
Proof.
  apply (reset_envs_get_zero_thrust_and_force 1 [mkVec4 1 1 1 1] mid_draws
           (one_env 1 3) 0 1).
  - apply one_env_shaped.
  - repeat constructor.
  - left. reflexivity.
  - reflexivity.
  - discriminate.
Defined.

End ForceClaims.

(** ** Step orchestrator: what reaches the simulator *)

Section PushClaims.
Local Open Scope R_scope.
Import Samples.

Lemma pre_physics_step_gym actions rnd d :
  let d' := pre_physics_step actions rnd d in
  let drone_indices := (fun e => all_actor_indices e 0) <$> reset_env_ids d in
  let reset_indices :=
    unique (((fun e => all_actor_indices e 1) <$> set_target_ids d)
            ++ unique drone_indices) in
  gym d'
    = gym d
      ++ (if bool_decide (0 < length (reset_env_ids d))%nat
          then [set_actor_root_state_tensor_indexed
                  drone_indices (length drone_indices)]
          else [])
      ++ (if bool_decide (0 < length reset_indices)%nat
          then [set_actor_root_state_tensor_indexed
                  reset_indices (length reset_indices)]
          else [])
      ++ [apply_rigid_body_force_tensors (forces d')].
Proof.
  intros d' drone_indices reset_indices. unfold d'.
  rewrite pre_physics_step_stages, force_stage_gym, push_stage_gym,
    reset_stage_gym, reset_stage_indices, target_stage_indices,
    target_stage_reset_env_ids, (proj2 (proj2 (target_stage_controls d))).
  by rewrite <- !app_assoc.
Qed.

Lemma root_state_writes_app d (calls : list GymCall) (d' : Drone) :
  gym d' = gym d ++ calls ->
  root_state_writes d'
    = root_state_writes d ++ List.filter is_root_state_write calls.
Proof. unfold root_state_writes. intros ->. apply List.filter_app. Qed.

(** Whenever some environment is flagged for reset, one call of
    [pre_physics_step] issues two indexed root-state writes: the one
    inside [reset_idx] and the combined one. *)
Lemma reset_tick_writes_twice n actions rnd d :
  shaped n d -> reset_env_ids d <> [] ->
  length (root_state_writes (pre_physics_step actions rnd d))
    = (length (root_state_writes d) + 2)%nat.
Proof.
  intros Hs Hne.
  rewrite (root_state_writes_app d _ _ (pre_physics_step_gym actions rnd d)).
  rewrite length_app. f_equal.
  destruct (reset_env_ids d) as [|e ids] eqn:Hids; [done|].
  rewrite bool_decide_eq_true_2 by (simpl; lia).
  rewrite bool_decide_eq_true_2; [done|].
  set (l := unique _).
  assert (all_actor_indices e 0 ∈ l) as Hin.
  { unfold l. rewrite elem_of_unique, elem_of_app, elem_of_unique.
    right. simpl. apply elem_of_cons. by left. }
  destruct l; [by apply elem_of_nil in Hin | simpl; lia].
Qed.

(** C5 fails on the code: with one environment flagged for reset (and
    no target due), one call of [pre_physics_step] pushes root state to
    the simulator twice, first the drone actor from inside [reset_idx]
    and then the combined, deduplicated index list. *)
Theorem reset_tick_pushes_root_state_twice :
  root_state_writes (pre_physics_step [idle] mid_draws (one_env 1 3))
    = [set_actor_root_state_tensor_indexed [0%Z] 1;
       set_actor_root_state_tensor_indexed [0%Z] 1].
Proof.
  rewrite (root_state_writes_app (one_env 1 3) _ _
             (pre_physics_step_gym [idle] mid_draws (one_env 1 3))).
  reflexivity.
Qed.

(** What [reset_idx] returns: the drone actor indices of the flagged
    environments, ascending and without repetition. *)
Lemma reset_idx_returns_drone_actors env_ids reset_plates rnd d :
  StronglySorted Z.lt (reset_idx env_ids reset_plates rnd d).2 /\
  forall x, x ∈ (reset_idx env_ids reset_plates rnd d).2 <->
            exists e, e ∈ env_ids /\ x = all_actor_indices e 0.
Proof.
  rewrite reset_idx_indices. split; [apply unique_sorted|].
  intros x. rewrite elem_of_unique, list_elem_of_fmap.
  split; intros (e & H1 & H2); exists e; done.
Qed.

Lemma plate_quat_flat : cols_3_7 (plate_quat mid_draws 0) = mkQuat 1 0 0 0.
Proof.
  unfold cols_3_7, plate_quat, from_axis_angle. simpl.
  replace (0 / 2) with 0 by lra. rewrite sin_0, cos_0. f_equal; lra.
Qed.

(** C10 fails on the code: [reset_idx] called for environment 0 with
    [reset_plates] set rewrites the orientation columns of the plate
    actor (actor index 1), yet returns the drone actor index 0 alone. *)
Theorem reset_idx_omits_plate_actor :
  let d := one_env 1 0 in
  let d' := (reset_idx [0%nat] true mid_draws d).1 in
  let touched := (reset_idx [0%nat] true mid_draws d).2 in
  touched = [0%Z] /\
  all_actor_indices 0 1 = 1%Z /\
  plate_orientations d !! 0%nat = Some (mkQuat 0 0 0 1) /\
  plate_orientations d' !! 0%nat = Some (mkQuat 1 0 0 0) /\
  plate_orientations d' !! 0%nat <> plate_orientations d !! 0%nat.
Proof.
  assert (plate_orientations (reset_idx [0%nat] true mid_draws (one_env 1 0)).1
            !! 0%nat = Some (mkQuat 1 0 0 0)) as Hafter.
  { change (Some (cols_3_7 (plate_quat mid_draws 0)) = Some (mkQuat 1 0 0 0)).
    by rewrite plate_quat_flat. }
  repeat split; try done.
  rewrite Hafter. simpl. intros [= H1 H0]. lra.
Qed.

End PushClaims.

(** ** Single-precision cross-checks *)

Section Binary32Checks.
Import Samples.

(** At the target, upright and at rest, the reward evaluates to
    exactly 9.0 in float32 as well, with [reset = 0]. *)
Example binary32_reward_at_target :
  Binary32.drone_reward hover32 hover32 upright32 still32 0 1000
    = (Binary32.lit 9 0, 0%Z).
Proof. vm_compute. reflexivity. Qed.

(** In float32 the squared distance of [far32] overflows to infinity
    and the quotient [3 / (1 + inf)] is +0: the reward is then exactly
    zero, and the distance bound sets [reset]. *)
Example binary32_reward_overflow :
  Binary32.drone_reward far32 hover32 upright32 still32 0 1000
    = (Binary32.lit 0 0, 1%Z).
Proof. vm_compute. reflexivity. Qed.

End Binary32Checks.

(** ** The thrust clamp in single precision *)

Section Binary32Thrust.
Import Floats.SpecFloat.
Import Samples.
Local Open Scope Z_scope.

Lemma shr_1_nonneg mrs : 0 <= shr_m mrs -> 0 <= shr_m (shr_1 mrs).
Proof. destruct mrs as [[|[p|p|]|[p|p|]] r s]; simpl; lia. Qed.

Lemma iter_pos_shr_1_nonneg (p : positive) mrs :
  0 <= shr_m mrs -> 0 <= shr_m (iter_pos shr_1 p mrs).
Proof.
  revert mrs. induction p as [p IH|p IH|]; intros mrs H; simpl.
  - apply IH, IH, shr_1_nonneg, H.
  - apply IH, IH, H.
  - apply shr_1_nonneg, H.
Qed.

Lemma shr_fexp_nonneg m e l :
  0 <= m -> 0 <= shr_m (shr_fexp Binary32.prec Binary32.emax m e l).1.
Proof.
  intros H. unfold shr_fexp, shr.
  assert (0 <= shr_m (shr_record_of_loc m l)) as H0
    by (destruct l as [|[]]; simpl; done).
  destruct (_ - _); simpl; auto using iter_pos_shr_1_nonneg.
Qed.

Lemma round_nearest_even_nonneg m l : 0 <= m -> 0 <= round_nearest_even m l.
Proof.
  intros H. destruct l as [|[]]; simpl; try lia. destruct (Z.even m); lia.
Qed.

(** Rounding a positive mantissa gives a zero, a finite number or an
    infinity. *)
Lemma binary_round_aux_not_nan sx (mx : positive) ex lx :
  binary_round_aux Binary32.prec Binary32.emax sx (Zpos mx) ex lx <> S754_nan.
Proof.
  unfold binary_round_aux.
  pose proof (shr_fexp_nonneg (Zpos mx) ex lx ltac:(lia)) as H1.
  destruct (shr_fexp _ _ (Zpos mx) ex lx) as [mrs' e']. simpl in H1.
  pose proof (shr_fexp_nonneg
                (round_nearest_even (shr_m mrs') (loc_of_shr_record mrs'))
                e' loc_Exact (round_nearest_even_nonneg _ _ H1)) as H2.
  destruct (shr_fexp _ _ _ e' loc_Exact) as [mrs'' e'']. simpl in H2.
  destruct (shr_m mrs''); [done | by destruct (_ <=? _) | lia].
Qed.

Lemma mul_scale_not_nan x :
  Binary32.is_nan x = false ->
  Binary32.is_nan (Binary32.mul x Binary32.thrust_velocity_scale) = false.
Proof.
  change Binary32.thrust_velocity_scale with (S754_finite false 16384000 (-13)).
  destruct x as [s|s| |s m e]; try done. intros _.
  unfold Binary32.mul, SFmul.
  pose proof (binary_round_aux_not_nan (xorb s false) (m * 16384000)
                (e + -13) loc_Exact) as H.
  by destruct (binary_round_aux _ _ _ _ _ _).
Qed.

Lemma SFcompare_antisym x y :
  SFcompare y x = option_map CompOpp (SFcompare x y).
Proof.
  destruct x as [s1|s1| |s1 m1 e1], y as [s2|s2| |s2 m2 e2]; simpl; try done;
    try (by destruct s1); try (by destruct s2); try (by destruct s1, s2).
  f_equal.
  pose proof (Pos.compare_cont_antisym m1 m2 Eq) as Hm. simpl in Hm.
  rewrite (Z.compare_antisym e1 e2), <- Hm.
  destruct s1, s2; try done; destruct (e1 ?= e2); simpl; done.
Qed.

Lemma not_ltb_leb x y :
  Binary32.is_nan x = false -> Binary32.is_nan y = false ->
  SFltb x y = false -> SFleb y x = true.
Proof.
  intros Hx Hy. unfold SFltb, SFleb. rewrite (SFcompare_antisym x y).
  destruct (SFcompare x y) as [[]|] eqn:E; simpl; try done.
  intros _. destruct x, y; simpl in *; done.
Qed.

Lemma clamp_within_limits x :
  Binary32.is_nan x = false ->
  let t := Binary32.clamp x Binary32.thrust_lower_limit
             Binary32.thrust_upper_limit in
  Binary32.leb Binary32.thrust_lower_limit t = true /\
  Binary32.leb t Binary32.thrust_upper_limit = true.
Proof.
  intros Hx t. unfold t, Binary32.clamp, Binary32.ltb, Binary32.leb.
  destruct (SFltb x _) eqn:E1; [by split|].
  destruct (SFltb _ x) eqn:E2; [by split|].
  split; by apply not_ltb_leb.
Qed.

(** C8, as stated, fails: an action whose component is NaN gets a NaN
    thrust, which is neither at least 0 nor at most 2000. *)
Lemma thrust_of_nan_action_is_nan :
  exists t,
    Binary32.thrust_prop Binary32.a0 [nan_action32] !! 0%nat = Some t /\
    Binary32.is_nan t = true /\
    Binary32.leb Binary32.thrust_lower_limit t = false /\
    Binary32.leb t Binary32.thrust_upper_limit = false.
Proof. exists S754_nan. repeat split. Qed.

(** C8 (amended): in single precision, the thrust computed for rotor
    [col] of environment [e] is the clamped product of that
    environment's own action component and the velocity scale; when the
    component is not NaN (it may be of any magnitude, or infinite) the
    thrust is at least 0 and at most 2000; when it is NaN the thrust is
    NaN; and the thrust is the same in every batch that has the same
    action row at [e]. *)
Theorem thrust_within_limits_unless_nan
    (col : Binary32.vec4 -> spec_float) (actions : list Binary32.vec4)
    (e : nat) (a : Binary32.vec4) :
  actions !! e = Some a ->
  valid_binary Binary32.prec Binary32.emax (col a) = true ->
  exists t,
    Binary32.thrust_prop col actions !! e = Some t /\
    t = Binary32.clamp (Binary32.mul (col a) Binary32.thrust_velocity_scale)
          Binary32.thrust_lower_limit Binary32.thrust_upper_limit /\
    (Binary32.is_nan (col a) = false ->
       Binary32.leb Binary32.thrust_lower_limit t = true /\
       Binary32.leb t Binary32.thrust_upper_limit = true) /\
    (Binary32.is_nan (col a) = true -> Binary32.is_nan t = true) /\
    (forall actions', actions' !! e = Some a ->
       Binary32.thrust_prop col actions' !! e = Some t).
Proof.
  intros Ha _. eexists. split; [|split; [reflexivity|split; [|split]]].
  - unfold Binary32.thrust_prop. by rewrite list_lookup_fmap, Ha.
  - intros Hn. apply clamp_within_limits. by apply mul_scale_not_nan.
  - intros Hn. destruct (col a); try done.
  - intros actions' Ha'. unfold Binary32.thrust_prop.
    by rewrite list_lookup_fmap, Ha'.
Qed.

Lemma thrust_within_limits_unless_nan_witness :
  exists t,
    Binary32.thrust_prop Binary32.a0 [nan_action32; wild_action32] !! 1%nat
      = Some t /\
    t = Binary32.clamp
          (Binary32.mul (Binary32.a0 wild_action32)
             Binary32.thrust_velocity_scale)
          Binary32.thrust_lower_limit Binary32.thrust_upper_limit /\
    (Binary32.is_nan (Binary32.a0 wild_action32) = false ->
       Binary32.leb Binary32.thrust_lower_limit t = true /\
       Binary32.leb t Binary32.thrust_upper_limit = true) /\
    (Binary32.is_nan (Binary32.a0 wild_action32) = true ->
       Binary32.is_nan t = true) /\
    (forall actions', actions' !! 1%nat = Some wild_action32 ->
       Binary32.thrust_prop Binary32.a0 actions' !! 1%nat = Some t).
Proof.
  apply (thrust_within_limits_unless_nan Binary32.a0
           [nan_action32; wild_action32] 1 wild_action32).
  - reflexivity.
  - reflexivity.
Defined.

End Binary32Thrust.

(** * Further properties of the evaluator *)

Section EvaluatorFacts.
Local Open Scope R_scope.
Import Samples.

Lemma Forall_where {A} (P : A -> Prop) (cond : list bool) (a b : list A) :
  Forall P a -> Forall P b -> Forall P (where_ cond a b).
Proof.
  intros Ha Hb. apply Forall_lookup. intros i x Hx. unfold where_ in Hx.
  apply lookup_zip_with_Some in Hx as (c & [u v] & -> & _ & Huv).
  apply lookup_zip_with_Some in Huv as (u' & v' & [= -> ->] & Hu & Hv).
  rewrite Forall_lookup in Ha, Hb.
  destruct c; simpl; eauto.
Qed.

Lemma length_where {A} (cond : list bool) (a b : list A) (n : nat) :
  length cond = n -> length a = n -> length b = n ->
  length (where_ cond a b) = n.
Proof.
  intros Hc Ha Hb. unfold where_.
  rewrite length_zip_with, length_zip_with. lia.
Qed.

Lemma const_fmap_length {A B C} (c : C) (l : list A) (k : list B) :
  length l = length k -> (fun _ => c) <$> l = (fun _ => c) <$> k.
Proof.
  revert k. induction l as [|x l IH]; intros [|y k] Hlen; simpl in *;
    try done. f_equal. apply IH. lia.
Qed.

(** X1: the returned reset tensor is a tensor of flags: every entry is 0
    or 1. *)
Theorem reset_entries_are_flags
    pos tgt quats linv angv rb pb L (i : nat) (x : Z) :
  (compute_drone_reward pos tgt quats linv angv rb pb L).2 !! i = Some x ->
  x = 0%Z \/ x = 1%Z.
Proof.
  unfold compute_drone_reward. simpl. intros Hx.
  assert (Forall (fun x => x = 0%Z \/ x = 1%Z) ((fun _ => 1%Z) <$> rb)) as H1.
  { apply Forall_fmap, Forall_forall. intros; simpl; auto. }
  assert (Forall (fun x => x = 0%Z \/ x = 1%Z) ((fun _ => 0%Z) <$> rb)) as H0.
  { apply Forall_fmap, Forall_forall. intros; simpl; auto. }
  revert i x Hx. apply Forall_lookup.
  repeat apply Forall_where; assumption.
Qed.

Lemma reset_entries_are_flags_witness :
  reset_at low hover upright 2 10 = 0%Z \/ reset_at low hover upright 2 10 = 1%Z.
Proof.
  apply (reset_entries_are_flags [low] [hover] [upright] [still] [still]
           [7%Z] [2%Z] 10 0).
  eapply compute_drone_reward_at; reflexivity.
Defined.

(** X2: neither the linear velocities nor the values of the incoming reset
    flags reach the result: two calls that differ only in them (with
    reset tensors of the same length) return the same reward and reset
    tensors.  A flag set before the call is not carried over. *)
Theorem evaluator_ignores_linvels_and_old_flags
    pos tgt quats linv linv' angv (rb rb' : list Z) pb L :
  length rb = length rb' ->
  compute_drone_reward pos tgt quats linv angv rb pb L
  = compute_drone_reward pos tgt quats linv' angv rb' pb L.
Proof.
  intros Hlen. unfold compute_drone_reward.
  rewrite (const_fmap_length 1%Z rb rb' Hlen).
  by rewrite (const_fmap_length 0%Z rb rb' Hlen).
Qed.

Lemma evaluator_ignores_linvels_and_old_flags_witness :
  compute_drone_reward [hover] [hover] [upright] [still] [still] [0%Z] [2%Z] 10
  = compute_drone_reward [hover] [hover] [upright] [aside] [still] [1%Z] [2%Z] 10.
Proof.
  apply (evaluator_ignores_linvels_and_old_flags
           [hover] [hover] [upright] [still] [aside] [still] [0%Z] [1%Z]).
  reflexivity.
Defined.

Lemma compute_drone_reward_lengths
    pos tgt quats linv angv rb pb L (n : nat) :
  length pos = n -> length tgt = n -> length quats = n ->
  length angv = n -> length rb = n -> length pb = n ->
  length (compute_drone_reward pos tgt quats linv angv rb pb L).1 = n /\
  length (compute_drone_reward pos tgt quats linv angv rb pb L).2 = n.
Proof.
  intros Hp Ht Hq Hw Hr Hg. unfold compute_drone_reward. simpl. split.
  - rewrite !length_zip_with, !length_fmap, !length_zip_with. lia.
  - repeat apply length_where;
      rewrite ?length_fmap, ?length_zip_with; lia.
Qed.

(** X3: with all per-environment inputs of leading dimension [n], both
    returned tensors have leading dimension [n]. *)
Theorem evaluator_keeps_batch_size
    pos tgt quats linv angv rb pb L (n : nat) :
  length pos = n -> length tgt = n -> length quats = n ->
  length angv = n -> length rb = n -> length pb = n ->
  length (compute_drone_reward pos tgt quats linv angv rb pb L).1 = n /\
  length (compute_drone_reward pos tgt quats linv angv rb pb L).2 = n.
Proof. apply compute_drone_reward_lengths. Qed.

Lemma evaluator_keeps_batch_size_witness :
  length (compute_drone_reward [hover; aside] [hover; hover] [upright; upright]
            [] [still; still] [0%Z; 0%Z] [2%Z; 3%Z] 10).1 = 2%nat /\
  length (compute_drone_reward [hover; aside] [hover; hover] [upright; upright]
            [] [still; still] [0%Z; 0%Z] [2%Z; 3%Z] 10).2 = 2%nat.
Proof.
  apply (evaluator_keeps_batch_size [hover; aside] [hover; hover]
           [upright; upright] [] [still; still] [0%Z; 0%Z] [2%Z; 3%Z] 10 2);
    reflexivity.
Defined.

End EvaluatorFacts.

Section RewardShape.
Local Open Scope R_scope.
Import Samples.

Lemma target_dist_at_nonneg t p : 0 <= target_dist_at t p.
Proof. apply sqrt_pos. Qed.

Lemma reward_at_factored pos target q angvel :
  reward_at pos target q angvel
  = 3 * (1.0 / (1.0 + target_dist_at target pos * target_dist_at target pos))
    * (1 + 1.0 / (1.0 + Rabs (1 - up_z_at q) * Rabs (1 - up_z_at q))
         + 1.0 / (1.0 + Rabs (vz angvel) * Rabs (vz angvel))).
Proof. unfold reward_at. simpl. unfold Rdiv. lra. Qed.

Lemma inv_one_plus_square_antitone (x y : R) :
  0 <= x <= y -> 1.0 / (1.0 + y * y) <= 1.0 / (1.0 + x * x).
Proof.
  intros Hxy. unfold Rdiv. apply Rmult_le_compat_l; [lra|].
  apply Rinv_le_contravar; nra.
Qed.



(** X6: of two environments of one batch with the same orientation and the
    same yaw rate, the one that is not nearer to its target does not get
    the larger reward. *)
Theorem farther_environment_earns_no_more
    pos tgt quats linv angv rb pb L (i j : nat)
    p t q w r g p' t' w' r' g' :
  pos !! i = Some p -> tgt !! i = Some t -> quats !! i = Some q ->
  angv !! i = Some w -> rb !! i = Some r -> pb !! i = Some g ->
  pos !! j = Some p' -> tgt !! j = Some t' -> quats !! j = Some q ->
  angv !! j = Some w' -> rb !! j = Some r' -> pb !! j = Some g' ->
  vz w = vz w' ->
  target_dist_at t p <= target_dist_at t' p' ->
  exists x x',
    (compute_drone_reward pos tgt quats linv angv rb pb L).1 !! i = Some x /\
    (compute_drone_reward pos tgt quats linv angv rb pb L).1 !! j = Some x' /\
    x' <= x.
Proof.
  intros Hp Ht Hq Hw Hr Hg Hp' Ht' Hq' Hw' Hr' Hg' Hspin Hdist.
  destruct (compute_drone_reward_at pos tgt quats linv angv rb pb L i
              p t q w r g Hp Ht Hq Hw Hr Hg) as [Hi _].
  destruct (compute_drone_reward_at pos tgt quats linv angv rb pb L j
              p' t' q w' r' g' Hp' Ht' Hq' Hw' Hr' Hg') as [Hj _].
  eexists _, _. split; [exact Hi|]. split; [exact Hj|].
  rewrite !reward_at_factored, <- Hspin.
  pose proof (inv_one_plus_square_antitone
                (target_dist_at t p) (target_dist_at t' p')
                (conj (target_dist_at_nonneg t p) Hdist)) as Hdec.
  pose proof (inv_one_plus_square (Rabs (1 - up_z_at q))) as Hu.
  pose proof (inv_one_plus_square (Rabs (vz w))) as Hs.
  nra.
Qed.

Lemma target_dist_at_aside : target_dist_at hover aside = 1.
Proof.
  unfold target_dist_at, vsum, vsquare, vsub, hover, aside. simpl.
  replace ((0 - 1) * (0 - 1) + (0 - 0) * (0 - 0) + (1 - 1) * (1 - 1))
    with 1 by lra.
  apply sqrt_1.
Qed.

Lemma farther_environment_earns_no_more_witness :
  exists x x',
    (compute_drone_reward [hover; aside] [hover; hover] [upright; upright]
       [still; still] [still; still] [0%Z; 0%Z] [2%Z; 2%Z] 10).1 !! 0%nat
      = Some x /\
    (compute_drone_reward [hover; aside] [hover; hover] [upright; upright]
       [still; still] [still; still] [0%Z; 0%Z] [2%Z; 2%Z] 10).1 !! 1%nat
      = Some x' /\
    x' <= x.
Proof.
  apply (farther_environment_earns_no_more
           [hover; aside] [hover; hover] [upright; upright]
           [still; still] [still; still] [0%Z; 0%Z] [2%Z; 2%Z] 10 0 1
           hover hover upright still 0%Z 2%Z aside hover still 0%Z 2%Z);
    try reflexivity.
  rewrite target_dist_at_same, target_dist_at_aside. lra.
Defined.

End RewardShape.

(** * Further properties of the step orchestrator *)

Section StepFrames.
Local Open Scope R_scope.

Lemma push_stage_buffers ta ra d :
  root_states (push_stage ta ra d) = root_states d /\
  reset_buf (push_stage ta ra d) = reset_buf d /\
  progress_buf (push_stage ta ra d) = progress_buf d /\
  initial_root_states (push_stage ta ra d) = initial_root_states d /\
  initial_marker_states (push_stage ta ra d) = initial_marker_states d.
Proof. unfold push_stage. by case_bool_decide. Qed.

Lemma force_stage_buffers actions ids d :
  root_states (force_stage actions ids d) = root_states d /\
  marker_states (force_stage actions ids d) = marker_states d /\
  target_root_positions (force_stage actions ids d) = target_root_positions d /\
  reset_buf (force_stage actions ids d) = reset_buf d /\
  progress_buf (force_stage actions ids d) = progress_buf d /\
  initial_root_states (force_stage actions ids d) = initial_root_states d /\
  initial_marker_states (force_stage actions ids d) = initial_marker_states d.
Proof. done. Qed.

Lemma target_stage_snapshots d :
  root_states (target_stage d).1 = root_states d /\
  initial_root_states (target_stage d).1 = initial_root_states d /\
  initial_marker_states (target_stage d).1 = initial_marker_states d.
Proof. unfold target_stage. by case_bool_decide. Qed.

Lemma reset_stage_snapshots rnd d :
  initial_root_states (reset_stage rnd d).1 = initial_root_states d /\
  initial_marker_states (reset_stage rnd d).1 = initial_marker_states d.
Proof.
  unfold reset_stage. case_bool_decide; [|done].
  by destruct (reset_plates_at d).
Qed.

Lemma reset_stage_in n rnd d (e : nat) :
  shaped n d -> e ∈ reset_env_ids d ->
  reset_buf (reset_stage rnd d).1 !! e = Some 0%Z /\
  progress_buf (reset_stage rnd d).1 !! e = Some 0%Z.
Proof.
  intros Hs He. unfold reset_stage. case_bool_decide as Hlen.
  - apply (reset_idx_flags n); auto using NoDup_nonzero, reset_env_ids_in_range.
    apply NoDup_nonzero.
  - destruct (reset_env_ids d); [by apply elem_of_nil in He | simpl in Hlen; lia].
Qed.

Lemma reset_stage_notin rnd d (e : nat) :
  e ∉ reset_env_ids d ->
  reset_buf (reset_stage rnd d).1 !! e = reset_buf d !! e /\
  progress_buf (reset_stage rnd d).1 !! e = progress_buf d !! e /\
  root_states (reset_stage rnd d).1 !! e = root_states d !! e.
Proof.
  intros He. unfold reset_stage. case_bool_decide; [|done].
  split; [|split].
  - by apply reset_idx_flags_notin.
  - by apply reset_idx_flags_notin.
  - by apply reset_idx_root_notin.
Qed.

Lemma pre_physics_step_buffers actions rnd d :
  let d2 := (reset_stage rnd (target_stage d).1).1 in
  root_states (pre_physics_step actions rnd d) = root_states d2 /\
  reset_buf (pre_physics_step actions rnd d) = reset_buf d2 /\
  progress_buf (pre_physics_step actions rnd d) = progress_buf d2.
Proof.
  intros d2. rewrite pre_physics_step_stages.
  pose proof (force_stage_buffers actions (reset_env_ids (target_stage d).1)
                (push_stage (target_stage d).2
                   (reset_stage rnd (target_stage d).1).2 d2))
    as (Hr & _ & _ & Hf & Hp & _).
  pose proof (push_stage_buffers (target_stage d).2
                (reset_stage rnd (target_stage d).1).2 d2)
    as (Hr' & Hf' & Hp' & _).
  fold d2. rewrite Hr, Hf, Hp, Hr', Hf', Hp'. done.
Qed.

Lemma force_stage_shaped n actions ids d :
  shaped n d -> shaped n (force_stage actions ids d).
Proof.
  intros []. constructor; simpl; rewrite ?length_scatter; done.
Qed.

Lemma push_stage_shaped n ta ra d : shaped n d -> shaped n (push_stage ta ra d).
Proof.
  intros Hs. unfold push_stage. case_bool_decide; [|done].
  destruct Hs. by constructor.
Qed.

Lemma reset_env_ids_of_zero_flags d :
  Forall (fun r => r = 0%Z) (reset_buf d) -> reset_env_ids d = [].
Proof.
  intros Hz. destruct (reset_env_ids d) as [|e ids] eqn:Hids; [done|].
  assert (e ∈ reset_env_ids d) as He by (rewrite Hids; apply elem_of_cons; by left).
  apply reset_env_ids_spec in He as (r & Hr & Hnz).
  rewrite Forall_lookup in Hz. by specialize (Hz e r Hr).
Qed.

End StepFrames.

Section StepClaims.
Local Open Scope R_scope.
Import Samples.

Lemma two_envs_shaped r0 r1 p0 p1 : shaped 2 (two_envs r0 r1 p0 p1).
Proof. by constructor. Qed.

Lemma pre_physics_step_shaped n actions rnd d :
  shaped n d -> shaped n (pre_physics_step actions rnd d).
Proof.
  intros Hs. rewrite pre_physics_step_stages.
  apply force_stage_shaped, push_stage_shaped, reset_stage_shaped.
  by apply target_stage_shaped.
Qed.

(** X7: called with an action batch of [num_envs] rows or of one row,
    [pre_physics_step] keeps the shape of every per-environment buffer:
    the leading dimension [num_envs] of all of them and the
    [bodies_per_env] bodies of every row of the force buffer, whichever
    environments are due for a target or a reset. *)
Theorem pre_physics_step_keeps_shapes n actions rnd d :
  shaped n d -> force_rows_shaped d -> batch_fits n actions ->
  shaped n (pre_physics_step actions rnd d) /\
  force_rows_shaped (pre_physics_step actions rnd d).
Proof.
  intros Hs Hrows _. split.
  - by apply pre_physics_step_shaped.
  - by apply pre_physics_step_force_rows.
Qed.

Lemma pre_physics_step_keeps_shapes_witness :
  shaped 2 (pre_physics_step [idle] mid_draws (two_envs 1 0 0 500)) /\
  force_rows_shaped (pre_physics_step [idle] mid_draws (two_envs 1 0 0 500)).
Proof.
  apply (pre_physics_step_keeps_shapes 2 [idle] mid_draws (two_envs 1 0 0 500)).
  - apply two_envs_shaped.
  - repeat constructor.
  - right. reflexivity.
Defined.

(** X8: [pre_physics_step] consumes every reset flag: when it returns, all
    entries of [reset_buf] are 0, so the reset set read from the
    resulting state is empty. *)
Theorem pre_physics_step_consumes_reset_flags n actions rnd d :
  shaped n d ->
  Forall (fun r => r = 0%Z) (reset_buf (pre_physics_step actions rnd d)) /\
  reset_env_ids (pre_physics_step actions rnd d) = [].
Proof.
  intros Hs.
  assert (Forall (fun r => r = 0%Z) (reset_buf (pre_physics_step actions rnd d)))
    as Hz.
  { rewrite (proj1 (proj2 (pre_physics_step_buffers actions rnd d))).
    pose proof (target_stage_shaped n d Hs) as Hs1.
    apply Forall_lookup. intros e r Hr.
    destruct (decide (e ∈ reset_env_ids (target_stage d).1)) as [He|He].
    - destruct (reset_stage_in n rnd _ e Hs1 He) as [H0 _]. congruence.
    - destruct (reset_stage_notin rnd _ e He) as [H0 _].
      rewrite H0 in Hr.
      destruct (decide (r = 0%Z)) as [|Hnz]; [done|].
      exfalso. apply He. apply reset_env_ids_spec. eauto. }
  split; [done | by apply reset_env_ids_of_zero_flags].
Qed.

Lemma pre_physics_step_consumes_reset_flags_witness :
  Forall (fun r => r = 0%Z)
    (reset_buf (pre_physics_step [idle] mid_draws (two_envs 1 0 0 500))) /\
  reset_env_ids (pre_physics_step [idle] mid_draws (two_envs 1 0 0 500)) = [].
Proof.
  apply (pre_physics_step_consumes_reset_flags 2 [idle] mid_draws
           (two_envs 1 0 0 500)).
  apply two_envs_shaped.
Defined.

End StepClaims.

Section StepState.
Local Open Scope R_scope.
Import Samples.

Lemma stages_keep_dt rnd d :
  dt (push_stage (target_stage d).2 (reset_stage rnd (target_stage d).1).2
        (reset_stage rnd (target_stage d).1).1) = dt d.
Proof.
  unfold push_stage, reset_stage, target_stage.
  repeat case_bool_decide; simpl; try done;
    destruct (reset_plates_at _); done.
Qed.

Lemma reset_stage_root_in n rnd d (k e : nat) (s0 : RootState) :
  shaped n d ->
  reset_env_ids d !! k = Some e -> initial_root_states d !! e = Some s0 ->
  root_states (reset_stage rnd d).1 !! e
    = Some (mkRootState
              (mkVec3
                 (vx (rs_pos s0) + torch_rand_float (-1.5) 1.5 (rand_x rnd k))
                 (vy (rs_pos s0) + torch_rand_float (-1.5) 1.5 (rand_y rnd k))
                 (vz (rs_pos s0) + torch_rand_float (-0.2) 1.5 (rand_z rnd k)))
              (rs_quat s0) (rs_linvel s0) (rs_angvel s0)).
Proof.
  intros Hs Hk Hs0. unfold reset_stage. case_bool_decide as Hlen.
  - apply (reset_idx_root_in n); auto using reset_env_ids_in_range.
    apply NoDup_nonzero.
  - apply lookup_lt_Some in Hk. lia.
Qed.

(** X9: one call of [pre_physics_step] restarts the flagged environments
    and no others: an environment whose reset flag is 0 keeps its
    progress counter and its root state; an environment whose flag is
    not 0 gets progress 0 and the root state of the Initial State
    Snapshot displaced by the draws of its place [k] in the reset set. *)
Theorem pre_physics_step_restarts_flagged_only
    n actions rnd d (e : nat) (r p : Z) (s s0 : RootState) :
  shaped n d ->
  reset_buf d !! e = Some r -> progress_buf d !! e = Some p ->
  root_states d !! e = Some s -> initial_root_states d !! e = Some s0 ->
  let d' := pre_physics_step actions rnd d in
  (r = 0%Z ->
     progress_buf d' !! e = Some p /\ root_states d' !! e = Some s) /\
  (r <> 0%Z ->
     progress_buf d' !! e = Some 0%Z /\
     exists k,
       reset_env_ids d !! k = Some e /\
       root_states d' !! e
         = Some (mkRootState
                   (vadd (rs_pos s0)
                      (mkVec3 (torch_rand_float (-1.5) 1.5 (rand_x rnd k))
                              (torch_rand_float (-1.5) 1.5 (rand_y rnd k))
                              (torch_rand_float (-0.2) 1.5 (rand_z rnd k))))
                   (rs_quat s0) (rs_linvel s0) (rs_angvel s0))).
Proof.
  intros Hs Hr Hp Hroot Hs0 d'. unfold d'.
  destruct (pre_physics_step_buffers actions rnd d) as (-> & _ & ->).
  pose proof (target_stage_shaped n d Hs) as Hs1.
  destruct (target_stage_flags d) as [Hf1 Hp1].
  destruct (target_stage_snapshots d) as (Hr1 & Hi1 & _).
  split.
  - intros ->.
    assert (e ∉ reset_env_ids (target_stage d).1) as He.
    { rewrite target_stage_reset_env_ids.
      intros (r' & Hr' & Hnz)%reset_env_ids_spec. congruence. }
    destruct (reset_stage_notin rnd _ e He) as (_ & -> & ->).
    by rewrite Hp1, Hr1.
  - intros Hnz.
    assert (e ∈ reset_env_ids (target_stage d).1) as He.
    { rewrite target_stage_reset_env_ids. apply reset_env_ids_spec. eauto. }
    split; [apply (reset_stage_in n rnd _ e Hs1 He)|].
    destruct (list_elem_of_lookup_1 _ _ He) as [k Hk].
    exists k. split; [by rewrite <- target_stage_reset_env_ids|].
    apply (reset_stage_root_in n rnd _ k e s0 Hs1 Hk). by rewrite Hi1.
Qed.

Lemma pre_physics_step_restarts_flagged_only_witness :
  let d' := pre_physics_step [idle] mid_draws (two_envs 1 0 7 8) in
  (0%Z = 0%Z ->
     progress_buf d' !! 1%nat = Some 8%Z /\
     root_states d' !! 1%nat = Some rest_aside) /\
  (0%Z <> 0%Z ->
     progress_buf d' !! 1%nat = Some 0%Z /\
     exists k,
       reset_env_ids (two_envs 1 0 7 8) !! k = Some 1%nat /\
       root_states d' !! 1%nat
         = Some (mkRootState
                   (vadd (rs_pos rest_aside)
                      (mkVec3 (torch_rand_float (-1.5) 1.5 (rand_x mid_draws k))
                              (torch_rand_float (-1.5) 1.5 (rand_y mid_draws k))
                              (torch_rand_float (-0.2) 1.5 (rand_z mid_draws k))))
                   (rs_quat rest_aside) (rs_linvel rest_aside)
                   (rs_angvel rest_aside))).
Proof.
  apply (pre_physics_step_restarts_flagged_only 2 [idle] mid_draws
           (two_envs 1 0 7 8) 1 0 8 rest_aside rest_aside).
  - apply two_envs_shaped.
  - reflexivity.
  - reflexivity.
  - reflexivity.
  - reflexivity.
Defined.

(** X10: the Initial State Snapshot is read-only: neither
    [pre_physics_step] nor [post_physics_step] changes
    [initial_root_states] or [initial_marker_states]; for
    [post_physics_step] this is said of the state the call leaves
    behind. *)
Theorem snapshots_are_never_written actions rnd rr rm (t : Task) :
  initial_root_states (pre_physics_step actions rnd (drone t))
    = initial_root_states (drone t) /\
  initial_marker_states (pre_physics_step actions rnd (drone t))
    = initial_marker_states (drone t) /\
  initial_root_states (drone (outcome_state (post_physics_step rr rm t)))
    = initial_root_states (drone t) /\
  initial_marker_states (drone (outcome_state (post_physics_step rr rm t)))
    = initial_marker_states (drone t).
Proof.
  rewrite pre_physics_step_stages.
  set (d := drone t).
  destruct (force_stage_buffers actions (reset_env_ids (target_stage d).1)
              (push_stage (target_stage d).2
                 (reset_stage rnd (target_stage d).1).2
                 (reset_stage rnd (target_stage d).1).1))
    as (_ & _ & _ & _ & _ & -> & ->).
  destruct (push_stage_buffers (target_stage d).2
              (reset_stage rnd (target_stage d).1).2
              (reset_stage rnd (target_stage d).1).1)
    as (_ & _ & _ & -> & ->).
  destruct (reset_stage_snapshots rnd (target_stage d).1) as [-> ->].
  destruct (target_stage_snapshots d) as (_ & -> & ->).
  repeat split.
Qed.

End StepState.

Section ForceState.
Local Open Scope R_scope.
Import Samples.

Lemma Forall_scatter {A B} (P : A -> Prop) (put : B -> A -> A)
    (ids : list nat) (vals : list B) (t : list A) :
  Forall (fun v => forall a, P (put v a)) vals ->
  Forall P t -> Forall P (scatter put ids vals t).
Proof.
  intros Hvals. revert ids t.
  induction Hvals as [|v vals Hv Hvals IH]; intros [|i ids] t Ht; try done.
  rewrite scatter_cons. apply IH. apply Forall_lookup. intros j a Ha.
  destruct (decide (i = j)) as [->|Hne].
  - rewrite list_lookup_alter_eq in Ha.
    destruct (t !! j); simplify_eq/=. apply Hv.
  - rewrite list_lookup_alter_ne in Ha by done.
    by eapply Forall_lookup_1 in Ht.
Qed.

Lemma pre_physics_step_thrusts actions rnd d :
  thrusts (pre_physics_step actions rnd d)
    = scatter fill4 (reset_env_ids d)
        (replicate (length (reset_env_ids d)) 0.0) (thrusts d).
Proof.
  rewrite pre_physics_step_stages. simpl.
  rewrite (proj1 (proj2 (proj2 (push_stage_frame _ _ _)))).
  rewrite (proj1 (reset_stage_controls _ _)).
  rewrite (proj1 (target_stage_controls d)).
  by rewrite target_stage_reset_env_ids.
Qed.

(** X11: the clamped thrusts are never stored in [self.thrusts]: one call
    of [pre_physics_step] leaves the thrust row of every environment
    outside the reset set as it was, and a thrust buffer that holds only
    zeros (as [__init__] creates it) still holds only zeros
    afterwards. *)
Theorem thrusts_buffer_never_receives_thrust actions rnd d :
  (forall e : nat, e ∉ reset_env_ids d ->
     thrusts (pre_physics_step actions rnd d) !! e = thrusts d !! e) /\
  (Forall zero4 (thrusts d) ->
     Forall zero4 (thrusts (pre_physics_step actions rnd d))).
Proof.
  rewrite pre_physics_step_thrusts. split.
  - intros e He. by apply scatter_lookup_notin.
  - intros Hz. apply Forall_scatter; [|done].
    apply Forall_forall. intros v Hv a.
    apply elem_of_replicate in Hv as [-> _].
    unfold zero4, fill4. simpl. lra.
Qed.

Lemma thrusts_buffer_never_receives_thrust_witness :
  (forall e : nat, e ∉ reset_env_ids (two_envs 1 0 7 8) ->
     thrusts (pre_physics_step [mkVec4 1 1 1 1; mkVec4 1 1 1 1] mid_draws
                (two_envs 1 0 7 8)) !! e
     = thrusts (two_envs 1 0 7 8) !! e) /\
  Forall zero4
    (thrusts (pre_physics_step [mkVec4 1 1 1 1; mkVec4 1 1 1 1] mid_draws
                (two_envs 1 0 7 8))).
Proof.
  destruct (thrusts_buffer_never_receives_thrust
              [mkVec4 1 1 1 1; mkVec4 1 1 1 1] mid_draws (two_envs 1 0 7 8))
    as [Hkeep Hzero].
  split; [exact Hkeep|]. apply Hzero.
  repeat constructor.
Defined.

Lemma pre_physics_step_forces actions rnd d :
  forces (pre_physics_step actions rnd d)
    = forces (force_stage actions (reset_env_ids d)
                (push_stage (target_stage d).2
                   (reset_stage rnd (target_stage d).1).2
                   (reset_stage rnd (target_stage d).1).1)).
Proof.
  by rewrite pre_physics_step_stages, target_stage_reset_env_ids.
Qed.

(** X12: for an environment that is not being reset, one call of
    [pre_physics_step] with an action batch of [num_envs] rows or of one
    row rewrites exactly the z entries of bodies 1 to 4 of its force
    rows, with [dt] times the clamped thrust of the matching column of
    the action row read for it (its own row, or the single row of a
    one-row batch); every x and y entry and the z entries of the other
    bodies are left as they were. *)
Theorem rotor_forces_written_per_action
    n actions rnd d (e : nat) (a : Vec4) (row : list Vec3) :
  shaped n d -> batch_fits n actions ->
  reset_buf d !! e = Some 0%Z -> action_of n actions e = Some a ->
  forces d !! e = Some row ->
  exists row',
    forces (pre_physics_step actions rnd d) !! e = Some row' /\
    length row' = length row /\
    forall (body : nat) (v : Vec3),
      row !! body = Some v ->
      exists v',
        row' !! body = Some v' /\ vx v' = vx v /\ vy v' = vy v /\
        match rotor_column body with
        | Some col =>
            vz v' = dt d * clamp (col a * thrust_velocity_scale)
                             thrust_lower_limit thrust_upper_limit
        | None => vz v' = vz v
        end.
Proof.
  intros Hs _ Hr Ha Hrow.
  assert (e ∉ reset_env_ids d) as He.
  { intros (r' & Hr' & Hnz)%reset_env_ids_spec. congruence. }
  rewrite pre_physics_step_forces.
  set (dx := push_stage _ _ _).
  assert (forces dx = forces d) as Hfx.
  { unfold dx.
    rewrite (proj2 (proj2 (proj2 (push_stage_frame _ _ _)))).
    rewrite (proj2 (reset_stage_controls _ _)).
    apply (proj1 (proj2 (target_stage_controls d))). }
  assert (action_of (length (forces dx)) actions e = Some a) as Ha'.
  { by rewrite Hfx, (shaped_forces n d Hs). }
  rewrite (force_stage_rotor_forces actions (reset_env_ids d) dx e a He Ha').
  unfold dx at 1 2 3 4. rewrite stages_keep_dt.
  rewrite Hfx, Hrow. simpl.
  eexists. split; [reflexivity|]. split.
  { unfold put_body_z. by rewrite !length_alter. }
  intros body v Hv. unfold put_body_z.
  destruct (decide (body = 4%nat)) as [->|N4].
  { rewrite list_lookup_alter_eq, !list_lookup_alter_ne, Hv by done.
    eexists. split; [reflexivity|]. simpl. auto. }
  rewrite (list_lookup_alter_ne _ _ 4 body) by done.
  destruct (decide (body = 3%nat)) as [->|N3].
  { rewrite list_lookup_alter_eq, !list_lookup_alter_ne, Hv by done.
    eexists. split; [reflexivity|]. simpl. auto. }
  rewrite (list_lookup_alter_ne _ _ 3 body) by done.
  destruct (decide (body = 2%nat)) as [->|N2].
  { rewrite list_lookup_alter_eq, !list_lookup_alter_ne, Hv by done.
    eexists. split; [reflexivity|]. simpl. auto. }
  rewrite (list_lookup_alter_ne _ _ 2 body) by done.
  destruct (decide (body = 1%nat)) as [->|N1].
  { rewrite list_lookup_alter_eq, Hv.
    eexists. split; [reflexivity|]. simpl. auto. }
  rewrite (list_lookup_alter_ne _ _ 1 body), Hv by done.
  exists v. split; [done|]. split; [done|]. split; [done|].
  destruct body as [|[|[|[|[|b]]]]]; simpl; done.
Qed.

Lemma rotor_forces_written_per_action_witness :
  exists row',
    forces (pre_physics_step [mkVec4 5 0.5 (-1) 0] mid_draws
              (two_envs 1 0 7 8)) !! 1%nat = Some row' /\
    length row' = length (replicate bodies_per_env still) /\
    forall (body : nat) (v : Vec3),
      replicate bodies_per_env still !! body = Some v ->
      exists v',
        row' !! body = Some v' /\ vx v' = vx v /\ vy v' = vy v /\
        match rotor_column body with
        | Some col =>
            vz v' = dt (two_envs 1 0 7 8)
                    * clamp (col (mkVec4 5 0.5 (-1) 0) * thrust_velocity_scale)
                        thrust_lower_limit thrust_upper_limit
        | None => vz v' = vz v
        end.
Proof.
  apply (rotor_forces_written_per_action 2
           [mkVec4 5 0.5 (-1) 0] mid_draws (two_envs 1 0 7 8) 1
           (mkVec4 5 0.5 (-1) 0) (replicate bodies_per_env still)).
  - apply two_envs_shaped.
  - right. reflexivity.
  - reflexivity.
  - reflexivity.
  - reflexivity.
Defined.

End ForceState.

Section CombinedWrite.
Local Open Scope Z_scope.
Import Samples.

Lemma length_insert_unique_fresh (x : Z) (l : list Z) :
  x ∉ l -> length (insert_unique x l) = S (length l).
Proof.
  induction l as [|y l IH]; simpl; [done|]. intros Hx.
  apply not_elem_of_cons in Hx as [Hne Hx].
  destruct (Z.ltb_spec x y); [done|].
  destruct (Z.eqb_spec x y); [done|]. simpl. by rewrite IH.
Qed.

Lemma length_unique_NoDup (l : list Z) : NoDup l -> length (unique l) = length l.
Proof.
  induction 1 as [|x l Hx Hnd IH]; simpl; [done|].
  rewrite length_insert_unique_fresh, IH; [done|]. by rewrite elem_of_unique.
Qed.

Lemma all_actor_indices_inj (k : nat) :
  Inj eq eq (fun e => all_actor_indices e k).
Proof. intros e e' H. unfold all_actor_indices in H. lia. Qed.

Lemma due_indices_NoDup d :
  NoDup (((fun e => all_actor_indices e 1) <$> set_target_ids d)
         ++ unique ((fun e => all_actor_indices e 0) <$> reset_env_ids d)).
Proof.
  apply NoDup_app. split; [|split].
  - apply (@NoDup_fmap_2 _ _ _ (all_actor_indices_inj 1)), NoDup_nonzero.
  - intros x (e & -> & _)%list_elem_of_fmap.
    rewrite elem_of_unique. intros (e' & He' & _)%list_elem_of_fmap.
    unfold all_actor_indices in He'. lia.
  - apply unique_NoDup.
Qed.

(** X13: the index list of the combined root-state write is ascending,
    holds the plate actor index [2e + 1] of every target-due
    environment and the drone actor index [2e] of every reset-due
    environment and nothing else, and has one entry for each of them:
    an environment due for both contributes two actors, and no actor is
    listed twice.  When the list is not empty, the last root-state write
    of the call carries it, with its length as the count. *)
Theorem combined_write_lists_each_due_actor_once actions rnd d :
  StronglySorted Z.lt (combined_indices d) /\
  (forall x : Z,
     x ∈ combined_indices d <->
     (exists e, e ∈ set_target_ids d /\ x = all_actor_indices e 1) \/
     (exists e, e ∈ reset_env_ids d /\ x = all_actor_indices e 0)) /\
  length (combined_indices d)
    = (length (set_target_ids d) + length (reset_env_ids d))%nat /\
  (combined_indices d <> [] ->
   last (root_state_writes (pre_physics_step actions rnd d))
     = Some (set_actor_root_state_tensor_indexed
               (combined_indices d) (length (combined_indices d)))).
Proof.
  unfold combined_indices. split; [apply unique_sorted|]. split; [|split].
  - intros x. rewrite elem_of_unique, elem_of_app, elem_of_unique,
      !list_elem_of_fmap.
    split; (intros [(e & H1 & H2)|(e & H1 & H2)]; [left|right]; exists e; done).
  - rewrite (length_unique_NoDup _ (due_indices_NoDup d)).
    rewrite length_app, length_fmap, length_unique_NoDup, length_fmap; [done|].
    apply (@NoDup_fmap_2 _ _ _ (all_actor_indices_inj 0)), NoDup_nonzero.
  - intros Hne.
    rewrite (root_state_writes_app d _ _ (pre_physics_step_gym actions rnd d)).
    rewrite !List.filter_app.
    rewrite (bool_decide_eq_true_2 (0 < length (unique _))%nat).
    + simpl. rewrite !app_assoc. apply last_snoc.
    + destruct (unique _); [done | simpl; lia].
Qed.

End CombinedWrite.

(** * Properties of the observation encoder and of the step after physics *)

Section ObservationFacts.
Local Open Scope R_scope.
Import Samples.

Lemma compute_observations_lookup (t : Task) (e : nat) o0 s tg :
  obs_buf t !! e = Some o0 ->
  root_states (drone t) !! e = Some s ->
  target_root_positions (drone t) !! e = Some tg ->
  obs_buf (compute_observations t) !! e
    = Some (mkObservation (vdiv (vsub tg (rs_pos s)) 3) (rs_quat s)
              (vdiv (rs_linvel s) 2) (vdiv (rs_angvel s) PI)).
Proof.
  intros Ho Hs Ht. simpl.
  unfold root_positions, root_quats, root_linvels, root_angvels.
  rewrite (scatter_all_rows_lookup put_obs_10_13 _ _ e (vdiv (rs_angvel s) PI));
    [|by rewrite !list_lookup_fmap, Hs].
  rewrite (scatter_all_rows_lookup put_obs_7_10 _ _ e (vdiv (rs_linvel s) 2));
    [|by rewrite !list_lookup_fmap, Hs].
  rewrite (scatter_all_rows_lookup put_obs_3_7 _ _ e (rs_quat s));
    [|by rewrite !list_lookup_fmap, Hs].
  rewrite (scatter_all_rows_lookup put_obs_0_3 _ _ e (vdiv (vsub tg (rs_pos s)) 3)).
  - by rewrite Ho.
  - rewrite list_lookup_fmap.
    erewrite (proj2 (lookup_zip_with_Some vsub _ _ e _)); [done|].
    exists tg, (rs_pos s). split; [done|]. split; [done|].
    by rewrite list_lookup_fmap, Hs.
Qed.

(** X14: [compute_observations] overwrites the whole observation row of
    an environment: columns 0:3 hold (target - position) / 3, columns
    3:7 the quaternion of the root state as it is, columns 7:10 the
    linear velocity / 2 and columns 10:13 the angular velocity / pi; the
    row is the same whatever [obs_buf] held before the call. *)
Theorem observation_row_is_overwritten (t : Task) (e : nat) o0 s tg :
  obs_buf t !! e = Some o0 ->
  root_states (drone t) !! e = Some s ->
  target_root_positions (drone t) !! e = Some tg ->
  exists o,
    obs_buf (compute_observations t) !! e = Some o /\
    obs_to_target o = vdiv (vsub tg (rs_pos s)) 3 /\
    obs_quat o = rs_quat s /\
    obs_linvel o = vdiv (rs_linvel s) 2 /\
    obs_angvel o = vdiv (rs_angvel s) PI /\
    forall (obs' : list Observation) (o1 : Observation) (epochs' : Z),
      obs' !! e = Some o1 ->
      obs_buf (compute_observations (mkTask (drone t) obs' epochs')) !! e
        = Some o.
Proof.
  intros Ho Hs Ht. eexists.
  split; [exact (compute_observations_lookup t e o0 s tg Ho Hs Ht)|].
  repeat split.
  intros obs' o1 epochs' Ho1.
  exact (compute_observations_lookup (mkTask (drone t) obs' epochs') e o1 s tg
           Ho1 Hs Ht).
Qed.

Lemma observation_row_is_overwritten_witness :
  exists o,
    obs_buf (compute_observations (mkTask (one_env 0 3) [blank] 0)) !! 0%nat
      = Some o /\
    obs_to_target o = vdiv (vsub hover (rs_pos rest)) 3 /\
    obs_quat o = rs_quat rest /\
    obs_linvel o = vdiv (rs_linvel rest) 2 /\
    obs_angvel o = vdiv (rs_angvel rest) PI /\
    forall (obs' : list Observation) (o1 : Observation) (epochs' : Z),
      obs' !! 0%nat = Some o1 ->
      obs_buf (compute_observations
                 (mkTask (drone (mkTask (one_env 0 3) [blank] 0)) obs' epochs'))
        !! 0%nat
        = Some o.
Proof.
  apply (observation_row_is_overwritten (mkTask (one_env 0 3) [blank] 0)
           0 blank rest hover); reflexivity.
Defined.

End ObservationFacts.

Section PostPhysicsFacts.
Local Open Scope Z_scope.
Import Samples.

Lemma pre_physics_step_max_episode_length actions rnd d :
  max_episode_length (pre_physics_step actions rnd d) = max_episode_length d.
Proof.
  rewrite pre_physics_step_stages.
  unfold force_stage, push_stage, reset_stage, target_stage. simpl.
  repeat case_bool_decide; simpl; try done; destruct (reset_plates_at _); done.
Qed.

Lemma pre_physics_step_progress n actions rnd d (e : nat) (r p : Z) :
  shaped n d ->
  reset_buf d !! e = Some r -> progress_buf d !! e = Some p ->
  progress_buf (pre_physics_step actions rnd d) !! e
    = Some (if decide (r = 0) then p else 0).
Proof.
  intros Hs Hr Hp.
  destruct (pre_physics_step_buffers actions rnd d) as (_ & _ & ->).
  pose proof (target_stage_shaped n d Hs) as Hs1.
  destruct (target_stage_flags d) as [_ Hp1].
  destruct (decide (r = 0)) as [->|Hnz].
  - assert (e ∉ reset_env_ids (target_stage d).1) as He.
    { rewrite target_stage_reset_env_ids.
      intros (r' & Hr' & Hnz)%reset_env_ids_spec. congruence. }
    destruct (reset_stage_notin rnd _ e He) as (_ & -> & _). by rewrite Hp1.
  - assert (e ∈ reset_env_ids (target_stage d).1) as He.
    { rewrite target_stage_reset_env_ids. apply reset_env_ids_spec. eauto. }
    apply (reset_stage_in n rnd _ e Hs1 He).
Qed.

Lemma compute_reward_raises d : compute_reward d = raised RuntimeError d.
Proof. reflexivity. Qed.

Lemma post_physics_step_buffers rr rm (t : Task) :
  let d := drone t in
  let d' := drone (outcome_state (post_physics_step rr rm t)) in
  progress_buf d' = (fun p => p + 1) <$> progress_buf d /\
  root_states d' = rr /\ marker_states d' = rm /\
  target_root_positions d' = target_root_positions d /\
  rew_buf d' = rew_buf d /\ reset_buf d' = reset_buf d /\
  max_episode_length d' = max_episode_length d /\
  initial_root_states d' = initial_root_states d /\
  thrusts d' = thrusts d /\ forces d' = forces d /\ gym d' = gym d.
Proof. simpl. repeat split. Qed.

Lemma post_physics_step_shaped n rr rm (t : Task) :
  shaped n (drone t) -> length rr = n -> length rm = n ->
  shaped n (drone (outcome_state (post_physics_step rr rm t))).
Proof.
  intros Hs Hrr Hrm.
  destruct (post_physics_step_buffers rr rm t)
    as (Hp & Hr & Hm & Ht & _ & Hf & _ & Hi & Hth & Hfo & _).
  destruct Hs. constructor; rewrite ?Hp, ?Hr, ?Hm, ?Ht, ?Hf, ?Hi, ?Hth, ?Hfo;
    rewrite ?length_fmap; done.
Qed.

Lemma forallb_false_of_lookup {A} (f : A -> bool) (l : list A) (i : nat) (x : A) :
  l !! i = Some x -> f x = false -> forallb f l = false.
Proof.
  intros Hx Hf. destruct (forallb f l) eqn:Hall; [|done].
  apply Is_true_true, forallb_True in Hall.
  rewrite Forall_lookup in Hall. specialize (Hall i x Hx).
  rewrite Hf in Hall. done.
Qed.

(** X15: after [post_physics_step] every progress counter is at least 1
    (the counters being non-negative before), so a call of
    [pre_physics_step] that follows it never takes the plate branch of
    [reset_idx]: whichever environments are flagged, it leaves every
    plate orientation as the simulator reported it.  [t1] is the state
    [post_physics_step] leaves behind. *)
Theorem plates_stay_fixed_after_a_physics_step
    n actions rnd rr rm (t : Task) :
  shaped n (drone t) -> length rr = n -> length rm = n ->
  Forall (fun p => 0 <= p) (progress_buf (drone t)) ->
  let t1 := outcome_state (post_physics_step rr rm t) in
  Forall (fun p => 1 <= p) (progress_buf (drone t1)) /\
  plate_orientations (pre_physics_step actions rnd (drone t1))
    = rs_quat <$> rm.
Proof.
  intros Hs Hrr Hrm Hnonneg t1. subst t1.
  set (t1 := outcome_state (post_physics_step rr rm t)).
  pose proof (post_physics_step_shaped n rr rm t Hs Hrr Hrm) as Hs1.
  fold t1 in Hs1.
  destruct (post_physics_step_buffers rr rm t) as (Hp & _ & Hm & _).
  fold t1 in Hp, Hm.
  assert (Forall (fun p => 1 <= p) (progress_buf (drone t1))) as Hpos.
  { rewrite Hp. apply Forall_fmap.
    eapply Forall_impl; [exact Hnonneg|]. intros p Hge. unfold compose. simpl in Hge. lia. }
  split; [done|].
  unfold plate_orientations.
  rewrite pre_physics_step_marker, reset_stage_marker,
    target_stage_reset_plates, target_stage_reset_env_ids.
  assert (rs_quat <$> marker_states (target_stage (drone t1)).1 = rs_quat <$> rm)
    as Hq.
  { by rewrite target_stage_marker_quat, Hm. }
  destruct (reset_plates_at (drone t1)) eqn:Hflag; [|done].
  destruct (reset_env_ids (drone t1)) as [|e ids] eqn:Hids; [done|].
  exfalso.
  pose proof (proj1 (reset_plates_at_spec n _ Hs1) Hflag e) as Hzero.
  rewrite Hids in Hzero. specialize (Hzero ltac:(apply elem_of_cons; by left)).
  eapply Forall_lookup_1 in Hpos; [|exact Hzero]. simpl in Hpos. lia.
Qed.

Lemma plates_stay_fixed_after_a_physics_step_witness :
  let t1 := outcome_state
              (post_physics_step [rest; rest_aside] [rest; rest]
                 (mkTask (two_envs 0 0 0 8) [blank; blank] 0)) in
  Forall (fun p => 1 <= p) (progress_buf (drone t1)) /\
  plate_orientations (pre_physics_step [idle; idle] mid_draws (drone t1))
    = rs_quat <$> [rest; rest].
Proof.
  apply (plates_stay_fixed_after_a_physics_step 2 [idle; idle] mid_draws
           [rest; rest_aside] [rest; rest]
           (mkTask (two_envs 0 0 0 8) [blank; blank] 0)).
  - apply two_envs_shaped.
  - reflexivity.
  - reflexivity.
  - repeat constructor; simpl; lia.
Defined.

End PostPhysicsFacts.

(** * Edge cases and composition *)

Section EdgeCases.
Local Open Scope R_scope.
Import Samples.

(** X17: called with no environment, [set_targets] changes nothing and
    returns no index, while [reset_idx] changes no buffer and returns no
    index but still issues an indexed root-state write, of zero
    actors. *)
Theorem index_methods_on_empty_sets reset_plates rnd d :
  set_targets [] d = (d, []) /\
  (reset_idx [] reset_plates rnd d).2 = [] /\
  (reset_idx [] reset_plates rnd d).1
    = gym_call (set_actor_root_state_tensor_indexed [] 0) d.
Proof. destruct d, reset_plates; repeat split. Qed.

(** X18: [reset_idx] leaves every environment outside [env_ids] as it was:
    root state, plate row, target, reset flag and progress counter. *)
Theorem reset_idx_leaves_other_environments
    env_ids reset_plates rnd d (e : nat) :
  e ∉ env_ids ->
  let d' := (reset_idx env_ids reset_plates rnd d).1 in
  root_states d' !! e = root_states d !! e /\
  marker_states d' !! e = marker_states d !! e /\
  target_root_positions d' !! e = target_root_positions d !! e /\
  reset_buf d' !! e = reset_buf d !! e /\
  progress_buf d' !! e = progress_buf d !! e.
Proof.
  intros He d'. unfold d'. split; [by apply reset_idx_root_notin|].
  split.
  { rewrite reset_idx_marker. destruct reset_plates; [|done].
    by apply scatter_lookup_notin. }
  split; [by rewrite reset_idx_target|].
  by apply reset_idx_flags_notin.
Qed.

Lemma reset_idx_leaves_other_environments_witness :
  let d' := (reset_idx [0%nat] true mid_draws (two_envs 1 0 7 8)).1 in
  root_states d' !! 1%nat = root_states (two_envs 1 0 7 8) !! 1%nat /\
  marker_states d' !! 1%nat = marker_states (two_envs 1 0 7 8) !! 1%nat /\
  target_root_positions d' !! 1%nat
    = target_root_positions (two_envs 1 0 7 8) !! 1%nat /\
  reset_buf d' !! 1%nat = reset_buf (two_envs 1 0 7 8) !! 1%nat /\
  progress_buf d' !! 1%nat = progress_buf (two_envs 1 0 7 8) !! 1%nat.
Proof.
  apply (reset_idx_leaves_other_environments [0%nat] true mid_draws
           (two_envs 1 0 7 8) 1).
  intros Hin. apply list_elem_of_singleton in Hin. discriminate.
Defined.



End EdgeCases.

Section Composition.
Local Open Scope R_scope.
Import Samples.


Lemma call_compute_drone_reward_tensor pos tgt quats linv angv rb pb L :
  call_compute_drone_reward pos tgt quats linv angv rb pb (PyTensor L)
  = Some (compute_drone_reward pos tgt quats linv angv rb pb L).
Proof. reflexivity. Qed.




End Composition.

Section SetTargetsAlone.
Local Open Scope R_scope.
Import Samples.

Lemma set_targets_marker_row n env_ids d (e : nat) (m : RootState) :
  shaped n d -> NoDup env_ids -> Forall (fun e => e < n)%nat env_ids ->
  e ∈ env_ids -> marker_states d !! e = Some m ->
  marker_states (set_targets env_ids d).1 !! e
    = Some (put_pos_z (0 + 1 + 0.0)
              (put_pos (mkVec3 (0 * 10 - 5) (0 * 10 - 5) (0 + 1)) m)).
Proof.
  intros Hs Hnd Hin He Hm.
  pose proof (set_targets_target_in n env_ids d Hs Hnd Hin e He) as Ht.
  destruct (list_elem_of_lookup_1 _ _ He) as [k Hk].
  revert Ht. simpl.
  set (T := scatter put_z env_ids _
              (scatter put_xy env_ids _ (target_root_positions d))).
  intros Ht.
  assert (length T = n) as HT.
  { unfold T. rewrite !length_scatter. apply Hs. }
  set (M := scatter put_pos env_ids (gather env_ids T) (marker_states d)).
  assert (M !! e = Some (put_pos (mkVec3 (0 * 10 - 5) (0 * 10 - 5) (0 + 1)) m))
    as HM.
  { unfold M.
    rewrite (scatter_lookup_in _ _ _ _ k e
               (mkVec3 (0 * 10 - 5) (0 * 10 - 5) (0 + 1)) Hnd Hk);
      [by rewrite Hm|].
    rewrite (gather_lookup env_ids T k e); [done| |done]. by rewrite HT. }
  rewrite (scatter_lookup_in _ _ _ _ k e (0 + 1 + 0.0) Hnd Hk).
  - by rewrite HM.
  - rewrite list_lookup_fmap, (gather_lookup env_ids _ k e); [| |done];
      unfold marker_positions; simpl; fold T; fold M.
    + by rewrite list_lookup_fmap, HM.
    + unfold M. by rewrite length_fmap, length_scatter, (shaped_marker n d Hs).
Qed.

(** X22: [set_targets] puts the target of every listed environment at
    (-5, -5, 1), whatever it was before, and moves the plate marker onto
    it without touching the marker's orientation or velocities;
    environments that are not listed keep target and marker; the
    returned indices are the plate actors [2e + 1] of the listed
    environments, in the order of the list. *)
Theorem set_targets_moves_markers_onto_targets
    n env_ids d (e : nat) (m : RootState) :
  shaped n d -> NoDup env_ids -> Forall (fun e => e < n)%nat env_ids ->
  marker_states d !! e = Some m ->
  let d' := (set_targets env_ids d).1 in
  (set_targets env_ids d).2 = (fun e => (2 * Z.of_nat e + 1)%Z) <$> env_ids /\
  (e ∈ env_ids ->
     target_root_positions d' !! e = Some (mkVec3 (-5) (-5) 1) /\
     marker_states d' !! e
       = Some (mkRootState (mkVec3 (-5) (-5) 1)
                 (rs_quat m) (rs_linvel m) (rs_angvel m))) /\
  (e ∉ env_ids ->
     target_root_positions d' !! e = target_root_positions d !! e /\
     marker_states d' !! e = Some m).
Proof.
  intros Hs Hnd Hin Hm d'. split; [|split].
  - rewrite set_targets_indices. apply list_fmap_ext. intros _ x _.
    unfold all_actor_indices. lia.
  - intros He. unfold d'.
    rewrite (set_targets_target_in n env_ids d Hs Hnd Hin e He), fixed_target_value.
    split; [done|].
    rewrite (set_targets_marker_row n env_ids d e m Hs Hnd Hin He Hm).
    unfold put_pos_z, put_pos, put_z. simpl. do 2 f_equal. f_equal; lra.
  - intros He. unfold d'.
    rewrite (set_targets_target_notin env_ids d e He).
    by rewrite (set_targets_marker_notin env_ids d e He).
Qed.

Lemma set_targets_moves_markers_onto_targets_witness :
  let d := two_envs 0 0 500 8 in
  let d' := (set_targets [0%nat] d).1 in
  (set_targets [0%nat] d).2 = (fun e => (2 * Z.of_nat e + 1)%Z) <$> [0%nat] /\
  (0%nat ∈ [0%nat] ->
     target_root_positions d' !! 0%nat = Some (mkVec3 (-5) (-5) 1) /\
     marker_states d' !! 0%nat
       = Some (mkRootState (mkVec3 (-5) (-5) 1)
                 (rs_quat rest) (rs_linvel rest) (rs_angvel rest))) /\
  (0%nat ∉ [0%nat] ->
     target_root_positions d' !! 0%nat = target_root_positions d !! 0%nat /\
     marker_states d' !! 0%nat = Some rest).
Proof.
  apply (set_targets_moves_markers_onto_targets 2 [0%nat] (two_envs 0 0 500 8)
           0 rest).
  - apply two_envs_shaped.
  - apply NoDup_singleton.
  - repeat constructor.
  - reflexivity.
Defined.

End SetTargetsAlone.
